(** * Proposal generator: colour resolution, font fitting, export and reset

    A shallow embedding of the transformation logic of [main.py]
    ([hex_to_rgb], the nested [adjust_font_size], [save_as_pdf] and
    [reset_application]) together with the Python built-ins these functions
    call, and the properties of the specification stated over it.

    Conventions.
    - A Python [str] is a [string]; a character is a code point in the range
      0..255, which is the range [ascii] offers.  The built-ins [str.lower],
      [str.strip] and [int(_, 16)] are given on that range.
    - Python integers are [Z]; a tuple of integers is a [list Z].
    - A raised exception is the [Raise] branch of [result]. *)

From Stdlib Require Import String Ascii List ZArith QArith Lia Bool.
From Equations Require Import Equations.
Import ListNotations.

Local Open Scope Z_scope.

(** ** Exceptions *)

Inductive exn : Type :=
| ValueError (msg : string).

Inductive result (A : Type) : Type :=
| Ok (a : A)
| Raise (e : exn).

Arguments Ok {A} a.
Arguments Raise {A} e.

Definition bind {A B : Type} (m : result A) (k : A -> result B) : result B :=
  match m with
  | Ok a => k a
  | Raise e => Raise e
  end.

Notation "x <- m ;; k" := (bind m (fun x => k))
  (at level 61, m at next level, right associativity).

(** [try: m except ValueError as e: raise ValueError(msg) from e] *)
Definition reraise_as {A : Type} (msg : string) (m : result A) : result A :=
  match m with
  | Ok a => Ok a
  | Raise (ValueError _) => Raise (ValueError msg)
  end.

(** Evaluates the elements of a generator in order; the first exception
    raised ends the evaluation. *)
Fixpoint collect {A B : Type} (f : A -> result B) (l : list A) : result (list B) :=
  match l with
  | [] => Ok []
  | a :: l' => b <- f a ;; bs <- collect f l' ;; Ok (b :: bs)
  end.

(** ** Python built-ins on [str] *)

Module Py.

Definition code (c : ascii) : Z := Z.of_N (N_of_ascii c).

Definition len (s : string) : Z := Z.of_nat (String.length s).

(** [s[i:j]] for [0 <= i <= j]; out-of-range bounds are clamped. *)
Definition slice (s : string) (i j : Z) : string :=
  String.substring (Z.to_nat i) (Z.to_nat (j - i)) s.

(** [range(start, stop, step)] for a positive step, [n] bounds the number
    of elements. *)
Fixpoint range_from (n : nat) (start stop step : Z) : list Z :=
  match n with
  | O => []
  | S n' => if start <? stop then start :: range_from n' (start + step) stop step
            else []
  end.

Definition range (start stop step : Z) : list Z :=
  range_from (Z.to_nat (stop - start)) start stop step.

(** [str.lower] on code points below 256: the letters A-Z and the Latin-1
    capitals 0xC0-0xDE (the multiplication sign 0xD7 apart) move up by 32. *)
Definition lower_char (c : ascii) : ascii :=
  let n := code c in
  if ((65 <=? n) && (n <=? 90)) || ((192 <=? n) && (n <=? 222) && negb (n =? 215))
  then ascii_of_N (Z.to_N (n + 32))
  else c.

Fixpoint lower (s : string) : string :=
  match s with
  | EmptyString => EmptyString
  | String c r => String (lower_char c) (lower r)
  end.

Definition startswith (s : string) (c : ascii) : bool :=
  match s with
  | String d _ => Ascii.eqb d c
  | EmptyString => false
  end.

(** [s.lstrip(c)] for a one-character argument. *)
Fixpoint lstrip (s : string) (c : ascii) : string :=
  match s with
  | String d r => if Ascii.eqb d c then lstrip r c else s
  | EmptyString => EmptyString
  end.

(** [''.join([c * 2 for c in s])] *)
Fixpoint join_doubled (s : string) : string :=
  match s with
  | EmptyString => EmptyString
  | String c r => String c (String c (join_doubled r))
  end.

(** [str.isspace] of one code point below 256. *)
Definition unicode_isspace (c : ascii) : bool :=
  let n := code c in
  ((9 <=? n) && (n <=? 13)) || ((28 <=? n) && (n <=? 32))
  || (n =? 133) || (n =? 160).

Fixpoint rstrip_space (s : string) : string :=
  match s with
  | EmptyString => EmptyString
  | String c r =>
      match rstrip_space r with
      | EmptyString => if unicode_isspace c then EmptyString
                       else String c EmptyString
      | r' => String c r'
      end
  end.

Fixpoint lstrip_space (s : string) : string :=
  match s with
  | String c r => if unicode_isspace c then lstrip_space r else s
  | EmptyString => EmptyString
  end.

(** [s.strip()] *)
Definition strip (s : string) : string := rstrip_space (lstrip_space s).

(** *** [int(s, 16)]

    CPython first rewrites a string that is not pure ASCII (spaces become
    [" "], decimal digits their ASCII digit, and the first character that
    is neither becomes ["?"] and ends the text; below 256 no code point
    above 126 is a decimal digit), then parses: blanks, a sign, an
    optional [0x] with one underscore, digits with single underscores
    between them, blanks, end of text. *)

Definition is_ascii (s : string) : bool :=
  forallb (fun c => code c <? 128) (list_ascii_of_string s).

Fixpoint transform_nonascii (s : string) : string :=
  match s with
  | EmptyString => EmptyString
  | String c r =>
      if code c <? 127 then String c (transform_nonascii r)
      else if unicode_isspace c then String " " (transform_nonascii r)
      else String "?" EmptyString
  end.

Definition transform_decimal_and_space (s : string) : string :=
  if is_ascii s then s else transform_nonascii s.

(** The C locale's [isspace]. *)
Definition c_isspace (c : ascii) : bool :=
  let n := code c in ((9 <=? n) && (n <=? 13)) || (n =? 32).

Fixpoint skip_space (s : string) : string :=
  match s with
  | String c r => if c_isspace c then skip_space r else s
  | EmptyString => EmptyString
  end.

(** Value of a character as a digit: 0-9, then a-z and A-Z as 10..35, and
    37 for everything else. *)
Definition digit_value (c : ascii) : Z :=
  let n := code c in
  if (48 <=? n) && (n <=? 57) then n - 48
  else if (97 <=? n) && (n <=? 122) then n - 97 + 10
  else if (65 <=? n) && (n <=? 90) then n - 65 + 10
  else 37.

Definition parse_sign (s : string) : Z * string :=
  match s with
  | String "+" r => (1, r)
  | String "-" r => (-1, r)
  | _ => (1, s)
  end.

Definition skip_prefix (s : string) : string :=
  match s with
  | String "0" (String x r) =>
      if Ascii.eqb x "x" || Ascii.eqb x "X" then
        match r with
        | String "_" r' => r'
        | _ => r
        end
      else s
  | _ => s
  end.

(** The digit loop: [prev] is the character read last ([None] before the
    first one), [acc] the value so far.  Returns the value and the text
    left, or [None] for a doubled or trailing underscore or no digit. *)
Fixpoint scan_digits (base : Z) (s : string) (prev : option ascii) (acc : Z)
  : option (Z * string) :=
  let finish :=
    match prev with
    | None => None
    | Some p => if Ascii.eqb p "_" then None else Some (acc, s)
    end in
  match s with
  | EmptyString => finish
  | String c r =>
      if Ascii.eqb c "_" then
        match prev with
        | Some p => if Ascii.eqb p "_" then None
                    else scan_digits base r (Some c) acc
        | None => scan_digits base r (Some c) acc
        end
      else if digit_value c <? base then
        scan_digits base r (Some c) (acc * base + digit_value c)
      else finish
  end.

Definition int16 (s : string) : result Z :=
  let invalid := Raise (ValueError "invalid literal for int() with base 16") in
  let s := skip_space (transform_decimal_and_space s) in
  let '(sign, s) := parse_sign s in
  let s := skip_prefix s in
  if startswith s "_" then invalid
  else
    match scan_digits 16 s None 0 with
    | None => invalid
    | Some (v, rest) =>
        match skip_space rest with
        | EmptyString => Ok (sign * v)
        | _ => invalid
        end
    end.

End Py.

(** ** The colour resolver *)

(** The values a caller may pass for a colour. *)
Inductive py_value : Type :=
| PyStr (s : string)
| PyInt (n : Z)
| PyNone.

Definition NAMED_COLORS : list (string * string) :=
  [ ("white"%string, "#FFFFFF"%string);
    ("black"%string, "#000000"%string);
    ("red"%string, "#FF0000"%string);
    ("green"%string, "#00FF00"%string);
    ("blue"%string, "#0000FF"%string) ].

(** [d.get(key, default)] *)
Fixpoint dict_get (d : list (string * string)) (key default : string) : string :=
  match d with
  | [] => default
  | (k, v) :: d' => if String.eqb k key then v else dict_get d' key default
  end.

(** The part of [hex_to_rgb] before the length test. *)
Definition resolve_name (color : string) : string :=
  dict_get NAMED_COLORS (Py.lower color) color.

Definition strip_marker (color : string) : string :=
  if Py.startswith color "#" then Py.lstrip color "#" else color.

Definition hex_to_rgb (color : py_value) : result (list Z) :=
  match color with
  | PyStr color =>
      let color := resolve_name color in
      let color := strip_marker color in
      if negb ((Py.len color =? 3) || (Py.len color =? 6)) then
        Raise (ValueError "Invalid hex color format")
      else
        reraise_as "Invalid hex color value"
          (let color := if Py.len color =? 3 then Py.join_doubled color
                        else color in
           collect (fun i => Py.int16 (Py.slice color i (i + 2)))
                   (Py.range 0 6 2))
  | _ => Raise (ValueError "Color must be a string")
  end.

(** ** The document library

    The part of FPDF that the export uses: the current font, the fill and
    text colours, the margins, and the content written so far.  A cell
    keeps the font and the colours it was drawn with.

    The document is the record of the calls the export makes on the
    library, in their order and with their arguments: a colour of the
    document is the channels last passed to [set_fill_color] or
    [set_text_color].  The failures of the library itself are outside
    this record: a font file that [add_font] does not find, a channel
    outside 0..255 that [set_fill_color] or [set_text_color] refuses, a
    file that [output] cannot write.  An [Ok] of the export therefore
    reads: the export made these calls and its own code raised nothing;
    whether the library carried them out is no part of it, and what is
    stated of a document is stated of a document that was assembled. *)

Record cell : Type := mkCell {
  cell_w : Z;
  cell_h : Z;
  cell_text : string;
  cell_border : Z;
  cell_fill : bool;
  cell_align : string;
  cell_font_style : string;
  cell_font_size : Z;
  cell_fill_color : list Z;
  cell_text_color : list Z
}.

Inductive op : Type :=
| OpAddPage
| OpCell (c : cell)
| OpMultiCell (c : cell)
| OpLn (h : Z)
| OpSetY (y : Z).

Record FPDF : Type := mkFPDF {
  fonts : list (string * string * string);
  font_family : string;
  font_style : string;
  font_size_pt : Z;
  fill_color : list Z;
  text_color : list Z;
  l_margin : Z;
  r_margin : Z;
  t_margin : Z;
  b_margin : Z;
  auto_page_break : bool;
  content : list op
}.

Module Fpdf.

(** [FPDF()]: no font selected, size 12, black colours, margins of 10 mm
    and a bottom margin of 20 mm with automatic page breaks. *)
Definition new : FPDF :=
  mkFPDF [] "" "" 12 [0; 0; 0] [0; 0; 0] 10 10 10 20 true [].

Definition add_font (pdf : FPDF) (family style fname : string) : FPDF :=
  mkFPDF (fonts pdf ++ [(family, style, fname)])
         (font_family pdf) (font_style pdf) (font_size_pt pdf)
         (fill_color pdf) (text_color pdf)
         (l_margin pdf) (r_margin pdf) (t_margin pdf) (b_margin pdf)
         (auto_page_break pdf) (content pdf).

(** [set_font(family, style, size)]; a size of 0 keeps the current one. *)
Definition set_font (pdf : FPDF) (family style : string) (size : Z) : FPDF :=
  mkFPDF (fonts pdf) family style
         (if size =? 0 then font_size_pt pdf else size)
         (fill_color pdf) (text_color pdf)
         (l_margin pdf) (r_margin pdf) (t_margin pdf) (b_margin pdf)
         (auto_page_break pdf) (content pdf).

Definition set_fill_color (pdf : FPDF) (rgb : list Z) : FPDF :=
  mkFPDF (fonts pdf) (font_family pdf) (font_style pdf) (font_size_pt pdf)
         rgb (text_color pdf)
         (l_margin pdf) (r_margin pdf) (t_margin pdf) (b_margin pdf)
         (auto_page_break pdf) (content pdf).

Definition set_text_color (pdf : FPDF) (rgb : list Z) : FPDF :=
  mkFPDF (fonts pdf) (font_family pdf) (font_style pdf) (font_size_pt pdf)
         (fill_color pdf) rgb
         (l_margin pdf) (r_margin pdf) (t_margin pdf) (b_margin pdf)
         (auto_page_break pdf) (content pdf).

Definition set_left_margin (pdf : FPDF) (m : Z) : FPDF :=
  mkFPDF (fonts pdf) (font_family pdf) (font_style pdf) (font_size_pt pdf)
         (fill_color pdf) (text_color pdf)
         m (r_margin pdf) (t_margin pdf) (b_margin pdf)
         (auto_page_break pdf) (content pdf).

Definition set_right_margin (pdf : FPDF) (m : Z) : FPDF :=
  mkFPDF (fonts pdf) (font_family pdf) (font_style pdf) (font_size_pt pdf)
         (fill_color pdf) (text_color pdf)
         (l_margin pdf) m (t_margin pdf) (b_margin pdf)
         (auto_page_break pdf) (content pdf).

Definition set_top_margin (pdf : FPDF) (m : Z) : FPDF :=
  mkFPDF (fonts pdf) (font_family pdf) (font_style pdf) (font_size_pt pdf)
         (fill_color pdf) (text_color pdf)
         (l_margin pdf) (r_margin pdf) m (b_margin pdf)
         (auto_page_break pdf) (content pdf).

Definition set_auto_page_break (pdf : FPDF) (auto : bool) (margin : Z) : FPDF :=
  mkFPDF (fonts pdf) (font_family pdf) (font_style pdf) (font_size_pt pdf)
         (fill_color pdf) (text_color pdf)
         (l_margin pdf) (r_margin pdf) (t_margin pdf) margin
         auto (content pdf).

Definition emit (pdf : FPDF) (o : op) : FPDF :=
  mkFPDF (fonts pdf) (font_family pdf) (font_style pdf) (font_size_pt pdf)
         (fill_color pdf) (text_color pdf)
         (l_margin pdf) (r_margin pdf) (t_margin pdf) (b_margin pdf)
         (auto_page_break pdf) (content pdf ++ [o]).

Definition current_cell (pdf : FPDF) (w h : Z) (text : string) (border : Z)
           (fill : bool) (align : string) : cell :=
  mkCell w h text border fill align
         (font_style pdf) (font_size_pt pdf) (fill_color pdf) (text_color pdf).

Definition add_page (pdf : FPDF) : FPDF := emit pdf OpAddPage.

Definition cell (pdf : FPDF) (w h : Z) (text : string) (border : Z)
           (fill : bool) (align : string) : FPDF :=
  emit pdf (OpCell (current_cell pdf w h text border fill align)).

Definition multi_cell (pdf : FPDF) (w h : Z) (text : string) (border : Z)
           (fill : bool) (align : string) : FPDF :=
  emit pdf (OpMultiCell (current_cell pdf w h text border fill align)).

Definition ln (pdf : FPDF) (h : Z) : FPDF := emit pdf (OpLn h).

Definition set_y (pdf : FPDF) (y : Z) : FPDF := emit pdf (OpSetY y).

End Fpdf.

(** ** The application state *)

(** The objective tables: the texts of the problem and goal entry widgets
    of each table, in the order the tables were added. *)
Definition table : Type := (string * string)%type.

Record App : Type := mkApp {
  about_bg_color : string;
  about_font_color : string;
  goal_font_color : string;
  goal_row_color : string;
  about_text : string;
  tables : list table;
  text_alignment : string
}.

(** The state [create_widgets] leaves: the default colours, an empty text,
    the alignment ["L"] and the one table [add_table] appends. *)
Definition add_table (self : App) : App :=
  mkApp (about_bg_color self) (about_font_color self) (goal_font_color self)
        (goal_row_color self) (about_text self)
        (tables self ++ [(EmptyString, EmptyString)])
        (text_alignment self).

Definition create_widgets : App :=
  add_table (mkApp "black" "white" "black" "#ffffff" "" [] "L").

Inductive alignment : Type := left | center | right.

(** [{"left": "L", "center": "C", "right": "R"}[align]] *)
Definition alignment_code (align : alignment) : string :=
  match align with
  | left => "L"
  | center => "C"
  | right => "R"
  end.

Definition set_alignment (self : App) (align : alignment) : App :=
  mkApp (about_bg_color self) (about_font_color self) (goal_font_color self)
        (goal_row_color self) (about_text self) (tables self)
        (alignment_code align).

(** The colour setters; [color] is what the colour chooser returned,
    [None] when it was dismissed. *)
Definition truthy (color : option string) : option string :=
  match color with
  | Some EmptyString => None
  | c => c
  end.

Definition set_about_bg_color (self : App) (color : option string) : App :=
  match truthy color with
  | Some c => mkApp c (about_font_color self) (goal_font_color self)
                    (goal_row_color self) (about_text self) (tables self)
                    (text_alignment self)
  | None => self
  end.

Definition set_about_font_color (self : App) (color : option string) : App :=
  match truthy color with
  | Some c => mkApp (about_bg_color self) c (goal_font_color self)
                    (goal_row_color self) (about_text self) (tables self)
                    (text_alignment self)
  | None => self
  end.

Definition set_goal_row_color (self : App) (color : option string) : App :=
  match truthy color with
  | Some c => mkApp (about_bg_color self) (about_font_color self)
                    (goal_font_color self) c (about_text self) (tables self)
                    (text_alignment self)
  | None => self
  end.

Definition set_goal_font_color (self : App) (color : option string) : App :=
  match truthy color with
  | Some c => mkApp (about_bg_color self) (about_font_color self) c
                    (goal_row_color self) (about_text self) (tables self)
                    (text_alignment self)
  | None => self
  end.

(** [limit_entry_length]: what an entry holds after a text was written to
    it. *)
Definition limit_entry_length (text : string) : string :=
  if Py.len text >? 105 then Py.slice text 0 105 else text.

Fixpoint update_table (ts : list table) (i : nat) (t : table) : list table :=
  match ts, i with
  | [], _ => []
  | _ :: ts', O => t :: ts'
  | t' :: ts', S i' => t' :: update_table ts' i' t
  end.

(** The user writes a problem and a goal into the entries of table [i]. *)
Definition write_entries (self : App) (i : nat) (problem goal : string) : App :=
  mkApp (about_bg_color self) (about_font_color self) (goal_font_color self)
        (goal_row_color self) (about_text self)
        (update_table (tables self) i
                      (limit_entry_length problem, limit_entry_length goal))
        (text_alignment self).

(** The user writes the text of the about section. *)
Definition write_about (self : App) (text : string) : App :=
  mkApp (about_bg_color self) (about_font_color self) (goal_font_color self)
        (goal_row_color self) text (tables self) (text_alignment self).

(** [reset_application]: the text is deleted, the four colours are set
    anew, and of the tables only the first is kept, its entries emptied. *)
Definition reset_application (self : App) : App :=
  mkApp "black" "white" "black" "#ffffff" ""
        (match tables self with
         | first_table :: _ => [(EmptyString, EmptyString)]
         | [] => tables self
         end)
        (text_alignment self).

(** ** Font fitting and the export *)

(** A value together with the equation that names it, for the test of a
    loop whose termination depends on the outcome. *)
Definition inspect {A : Type} (x : A) : {y : A | x = y} := exist _ x eq_refl.

Section Document.

(** The width FPDF computes for a text set in the font of a family, a
    style and a size. *)
Variable string_width : string -> string -> Z -> string -> Q.

Definition get_string_width (pdf : FPDF) (text : string) : Q :=
  string_width (font_family pdf) (font_style pdf) (font_size_pt pdf) text.

(** The state of the loop of [adjust_font_size] is the document, whose
    font the loop sets, and [font_size]. *)
Definition keeps_shrinking (pdf : FPDF) (text : string) (max_width : Q)
           (font_size : Z) : bool :=
  negb (Qle_bool (get_string_width pdf text) max_width) && (font_size >? 6).

Equations? adjust_loop (pdf : FPDF) (text : string) (max_width : Q)
           (font_size : Z) : FPDF * Z
  by wf (Z.to_nat (font_size - 6)) lt :=
  adjust_loop pdf text max_width font_size
    with inspect (keeps_shrinking pdf text max_width font_size) := {
    | exist _ true continue =>
        adjust_loop (Fpdf.set_font pdf "NotoSans" "" (font_size - 1))
                    text max_width (font_size - 1)
    | exist _ false _ => (pdf, font_size) }.
Proof.
  unfold keeps_shrinking in continue.
  apply andb_prop in continue as [_ Hgt]. lia.
Qed.

Definition adjust_font_size (pdf : FPDF) (text : string) (max_width : Q)
           (initial_font_size : Z) : FPDF * Z :=
  adjust_loop pdf text max_width initial_font_size.

Definition cell_width_problem : Z := 30.
Definition cell_width_text : Z := 150.
Definition cell_height : Z := 10.

(** [text if text else "N/A"] *)
Definition or_na (text : string) : string :=
  match text with
  | EmptyString => "N/A"
  | _ => text
  end.

(** The value cell of a row: the font is set to size 12, fitted to the
    text, and the text is drawn at the size chosen. *)
Definition value_cell (pdf : FPDF) (text : string) : FPDF :=
  let pdf := Fpdf.set_font pdf "NotoSans" "" 12 in
  let '(pdf, font_size) :=
    adjust_font_size pdf (or_na text) (inject_Z cell_width_text) 12 in
  let pdf := Fpdf.set_font pdf "NotoSans" "" font_size in
  Fpdf.cell pdf cell_width_text cell_height (or_na text) 1 true "".

(** One turn of the loop over [self.tables]. *)
Definition render_table (self : App) (pdf : FPDF) (t : table) : result FPDF :=
  let '(problem_text, goal_text) := t in
  let pdf := Fpdf.set_fill_color pdf [255; 255; 255] in
  let pdf := Fpdf.set_text_color pdf [0; 0; 0] in
  let pdf := Fpdf.set_font pdf "NotoSans" "B" 12 in
  let pdf := Fpdf.cell pdf cell_width_problem cell_height "Problem:" 1 true "" in
  let pdf := value_cell pdf problem_text in
  let pdf := Fpdf.ln pdf cell_height in
  fill <- hex_to_rgb (PyStr (goal_row_color self)) ;;
  let pdf := Fpdf.set_fill_color pdf fill in
  ink <- hex_to_rgb (PyStr (goal_font_color self)) ;;
  let pdf := Fpdf.set_text_color pdf ink in
  let pdf := Fpdf.set_font pdf "NotoSans" "B" 12 in
  let pdf := Fpdf.cell pdf cell_width_problem cell_height "Goal:" 1 true "" in
  let pdf := value_cell pdf goal_text in
  Ok (Fpdf.ln pdf (cell_height * 2)).

Fixpoint render_tables (self : App) (pdf : FPDF) (ts : list table)
  : result FPDF :=
  match ts with
  | [] => Ok pdf
  | t :: ts' => pdf <- render_table self pdf t ;; render_tables self pdf ts'
  end.

(** The document up to the save dialog. *)
Definition assemble (self : App) : result FPDF :=
  let pdf := Fpdf.new in
  let pdf := Fpdf.add_font pdf "NotoSans" "" "NotoSans-Regular.ttf" in
  let pdf := Fpdf.add_font pdf "NotoSans" "B" "NotoSans-Bold.ttf" in
  let pdf := Fpdf.add_page pdf in
  let pdf := Fpdf.set_font pdf "NotoSans" "B" 20 in
  let pdf := Fpdf.cell pdf 0 10 "Details About the Project:" 0 false "L" in
  let pdf := Fpdf.ln pdf 10 in
  fill <- hex_to_rgb (PyStr (about_bg_color self)) ;;
  let pdf := Fpdf.set_fill_color pdf fill in
  ink <- hex_to_rgb (PyStr (about_font_color self)) ;;
  let pdf := Fpdf.set_text_color pdf ink in
  let pdf := Fpdf.set_font pdf "NotoSans" "" 12 in
  let pdf := Fpdf.set_left_margin pdf 15 in
  let pdf := Fpdf.set_right_margin pdf 15 in
  let pdf := Fpdf.set_top_margin pdf 15 in
  let pdf := Fpdf.set_auto_page_break pdf true 15 in
  let pdf := Fpdf.multi_cell pdf 0 10
               (Py.strip (about_text self ++ String "010" EmptyString))
               0 true (text_alignment self) in
  let pdf := Fpdf.add_page pdf in
  let pdf := Fpdf.set_font pdf "NotoSans" "B" 20 in
  let pdf := Fpdf.set_text_color pdf [0; 0; 0] in
  let pdf := Fpdf.set_y pdf 20 in
  let pdf := Fpdf.cell pdf 0 10 "Project Objectives" 0 false "C" in
  let pdf := Fpdf.ln pdf 10 in
  render_tables self pdf (tables self).

(** [save_as_pdf]: [file_path] is the answer of the save dialog, the
    empty string when the dialog was cancelled.  The result is the state
    of the application afterwards and the file written, if any. *)
Definition save_as_pdf (self : App) (file_path : string)
  : result (App * option (string * FPDF)) :=
  pdf <- assemble self ;;
  match file_path with
  | EmptyString => Ok (self, None)
  | _ => Ok (reset_application self, Some (file_path, pdf))
  end.

(** *** Predicates on fonts, cells and rows *)

(** The document is set in the regular face at the given size, as it is
    before each call of [adjust_font_size]. *)
Definition regular_at (pdf : FPDF) (size : Z) : Prop :=
  font_family pdf = "NotoSans"%string /\ font_style pdf = EmptyString
  /\ font_size_pt pdf = size.

(** The text is wider than [max_width] in the regular face at [size]. *)
Definition overflows_at (text : string) (max_width : Q) (size : Z) : Prop :=
  (max_width < string_width "NotoSans" "" size text)%Q.

(** The text fits the value cell in the regular face at size 12. *)
Definition fits_at_start (text : string) : Prop :=
  (string_width "NotoSans" "" 12 text <= inject_Z cell_width_text)%Q.

(** What a value cell adds to the document. *)
Definition value_cell_of (text : string) (c : cell) : Prop :=
  cell_w c = cell_width_text
  /\ cell_text c = or_na text
  /\ 6 <= cell_font_size c <= 12
  /\ (fits_at_start (or_na text) -> cell_font_size c = 12).

(** What a turn of the loop adds: the two rows of a table. *)
Definition rows_of (t : table) (ops : list op) : Prop :=
  exists lp vp lg vg,
    ops = [OpCell lp; OpCell vp; OpLn cell_height;
           OpCell lg; OpCell vg; OpLn (cell_height * 2)]
    /\ cell_text lp = "Problem:"%string /\ value_cell_of (fst t) vp
    /\ cell_text lg = "Goal:"%string /\ value_cell_of (snd t) vg.

End Document.

(** ** Hexadecimal digits, as the specification reads them *)

(** The place of a character in a text, counted from [i]. *)
Fixpoint place_from (i : Z) (c : ascii) (s : string) : option Z :=
  match s with
  | EmptyString => None
  | String d r => if Ascii.eqb c d then Some i else place_from (i + 1) c r
  end.

(** The value of a hexadecimal digit is its place among the sixteen
    digits, written in small or in capital letters. *)
Definition hex_digit (c : ascii) : option Z :=
  match place_from 0 c "0123456789abcdef" with
  | Some d => Some d
  | None => place_from 0 c "0123456789ABCDEF"
  end.

Definition is_hex_digit (c : ascii) : bool :=
  match hex_digit c with
  | Some _ => true
  | None => false
  end.

Definition all_hex (s : string) : bool :=
  forallb is_hex_digit (list_ascii_of_string s).

(** The number a string of hexadecimal digits denotes, most significant
    digit first; a character that is no digit counts as 0. *)
Definition hex_number (s : string) : Z :=
  fold_left (fun acc c => 16 * acc + match hex_digit c with
                                     | Some d => d
                                     | None => 0
                                     end)
            (list_ascii_of_string s) 0.

(** The three channels that three or six hexadecimal digits denote: the
    digits are taken two by two, each digit of the short form twice. *)
Definition channels (s : string) : list Z :=
  let digits := if Nat.eqb (String.length s) 3 then Py.join_doubled s else s in
  map (fun i => hex_number (String.substring i 2 digits)) [0%nat; 2%nat; 4%nat].

(** The 22 hexadecimal digits. *)
Definition hex_chars : list ascii :=
  list_ascii_of_string "0123456789abcdefABCDEF".

(** [n] marker characters in a row. *)
Fixpoint markers (n : nat) : string :=
  match n with
  | O => EmptyString
  | S n' => String "#" (markers n')
  end.

(** ** Auxiliary definitions of the statements and proofs *)

(** The result is the integer [z]. *)
Definition result_Z_eqb (r : result Z) (z : Z) : bool :=
  match r with
  | Ok v => v =? z
  | Raise _ => false
  end.

(** Texts of six and of two characters. *)
Definition six (r1 r2 g1 g2 b1 b2 : ascii) : string :=
  String r1 (String r2 (String g1 (String g2 (String b1 (String b2 EmptyString))))).

Definition pair_of (a b : ascii) : string := String a (String b EmptyString).

(** The 256 characters, and the range of what [int] accepts of two of
    them. *)
Definition all_chars : list ascii := map ascii_of_nat (seq 0 256).

Definition channel_in_range (a b : ascii) : bool :=
  match Py.int16 (pair_of a b) with
  | Ok v => (-15 <=? v) && (v <=? 255)
  | Raise _ => true
  end.

(** A font whose every character is 0.6 em wide, measured in millimetres
    (a point is 25.4/72 mm): a text of [n] characters at size [s] is
    [n * s * 127 / 600] mm wide. *)
Definition fixed_pitch_width (family style : string) (size : Z) (text : string)
  : Q :=
  (Z.of_nat (String.length text) * size * 127) # 600.

(** [long] has [short] inside it and is not [short] itself. *)
Definition strict_superstring (long short : string) : Prop :=
  (exists pre post, long = String.append pre (String.append short post))
  /\ long <> short.

(** The document as it is before a value cell is fitted. *)
Definition regular12 : FPDF := Fpdf.set_font Fpdf.new "NotoSans" "" 12.

(** An application with one table: no problem text, and a goal. *)
Definition one_goal : App :=
  write_entries create_widgets 0 "" "Sub-second builds".

(** An application with three tables, colours of the user's choice and a
    centred text. *)
Definition three_objectives : App :=
  let self := write_about create_widgets "Hello World" in
  let self := write_entries self 0 "Slow builds" "Sub-second builds" in
  let self := write_entries (add_table self) 1 "Flaky tests" "" in
  let self := write_entries (add_table self) 2 "" "One-click release" in
  let self := set_about_bg_color self (Some "#336699"%string) in
  let self := set_about_font_color self (Some "#ffcc00"%string) in
  let self := set_goal_row_color self (Some "#abc"%string) in
  let self := set_goal_font_color self (Some "#102030"%string) in
  set_alignment self center.

(** ** The session

    What the user can do between the start of the application and its
    end, as the events the callbacks of [create_widgets] answer. *)

(** A colour as the colour chooser returns it: the marker and six
    hexadecimal digits. *)
Definition is_chooser_color (c : string) : bool :=
  match c with
  | String "#" r => Nat.eqb (String.length r) 6 && all_hex r
  | _ => false
  end.

Inductive action : Type :=
| AddTable
| SetAlignment (align : alignment)
| SetAboutBgColor (answer : option string)
| SetAboutFontColor (answer : option string)
| SetGoalRowColor (answer : option string)
| SetGoalFontColor (answer : option string)
| WriteEntries (i : nat) (problem goal : string)
| WriteAbout (text : string)
| SaveAsPdf (file_path : string).

(** The answer of a colour chooser: a colour, or nothing when the dialog
    was dismissed. *)
Definition chooser_answer (answer : option string) : bool :=
  match answer with
  | Some c => is_chooser_color c
  | None => true
  end.

Definition action_ok (a : action) : bool :=
  match a with
  | SetAboutBgColor c | SetAboutFontColor c
  | SetGoalRowColor c | SetGoalFontColor c => chooser_answer c
  | _ => true
  end.

(** One event.  An exception raised in a callback leaves the application
    as the callback left it: [save_as_pdf] has changed nothing when a
    colour fails to resolve. *)
Definition step (string_width : string -> string -> Z -> string -> Q)
           (self : App) (a : action) : App :=
  match a with
  | AddTable => add_table self
  | SetAlignment align => set_alignment self align
  | SetAboutBgColor c => set_about_bg_color self c
  | SetAboutFontColor c => set_about_font_color self c
  | SetGoalRowColor c => set_goal_row_color self c
  | SetGoalFontColor c => set_goal_font_color self c
  | WriteEntries i problem goal => write_entries self i problem goal
  | WriteAbout text => write_about self text
  | SaveAsPdf file_path =>
      match save_as_pdf string_width self file_path with
      | Ok (self', _) => self'
      | Raise _ => self
      end
  end.

Definition run (string_width : string -> string -> Z -> string -> Q)
           (actions : list action) : App :=
  fold_left (step string_width) actions create_widgets.

(** A colour the application starts with or the chooser returned. *)
Definition color_ok (c : string) : Prop :=
  c = "black"%string \/ c = "white"%string \/ is_chooser_color c = true.

Definition entry_ok (t : table) : Prop :=
  Py.len (fst t) <= 105 /\ Py.len (snd t) <= 105.

(** What every state of a session satisfies. *)
Definition well_formed (self : App) : Prop :=
  tables self <> []
  /\ Forall entry_ok (tables self)
  /\ In (text_alignment self) ["L"%string; "C"%string; "R"%string]
  /\ color_ok (about_bg_color self) /\ color_ok (about_font_color self)
  /\ color_ok (goal_row_color self) /\ color_ok (goal_font_color self).

(** The colour resolves. *)
Definition resolves (color : string) : Prop :=
  exists rgb, hex_to_rgb (PyStr color) = Ok rgb.

(** A session: a text and an objective are written, a table is added, the
    text is centred, a colour is chosen and another chooser dismissed, an
    export is cancelled, a long goal is written and the export is made. *)
Definition sample_session : list action :=
  [ WriteAbout "Hello World";
    WriteEntries 0 "Slow builds" "Sub-second builds";
    AddTable;
    SetAlignment center;
    SetAboutBgColor (Some "#336699"%string);
    SetGoalRowColor None;
    SaveAsPdf "";
    WriteEntries 1 "Flaky tests"
      "No test fails twice in a row without a change of the code under test, on any of the build machines, in any week of the year";
    SetGoalFontColor (Some "#102030"%string) ].

(** ** The document, described by its parts *)

(** The size the font-fit rule chooses for the value cell of a text. *)
Definition fit_size (string_width : string -> string -> Z -> string -> Q)
           (text : string) : Z :=
  snd (adjust_font_size string_width regular12 (or_na text)
                        (inject_Z cell_width_text) 12).

Definition label_cell (text : string) (fill ink : list Z) : cell :=
  mkCell cell_width_problem cell_height text 1 true "" "B" 12 fill ink.

Definition text_cell (string_width : string -> string -> Z -> string -> Q)
           (text : string) (fill ink : list Z) : cell :=
  mkCell cell_width_text cell_height (or_na text) 1 true "" ""
         (fit_size string_width text) fill ink.

(** The two rows of a table and the gaps after them. *)
Definition row_ops (string_width : string -> string -> Z -> string -> Q)
           (fill ink : list Z) (t : table) : list op :=
  [ OpCell (label_cell "Problem:" [255; 255; 255] [0; 0; 0]);
    OpCell (text_cell string_width (fst t) [255; 255; 255] [0; 0; 0]);
    OpLn 10;
    OpCell (label_cell "Goal:" fill ink);
    OpCell (text_cell string_width (snd t) fill ink);
    OpLn 20 ].

(** The about page and the heading of the objectives page. *)
Definition front_ops (self : App) (bg fg : list Z) : list op :=
  [ OpAddPage;
    OpCell (mkCell 0 10 "Details About the Project:" 0 false "L" "B" 20
                   [0; 0; 0] [0; 0; 0]);
    OpLn 10;
    OpMultiCell (mkCell 0 10 (Py.strip (about_text self ++ String "010" EmptyString))
                        0 true (text_alignment self) "" 12 bg fg);
    OpAddPage;
    OpSetY 20;
    OpCell (mkCell 0 10 "Project Objectives" 0 false "C" "B" 20 bg [0; 0; 0]);
    OpLn 10 ].

(** The texts of the cells of a document, in the order they were drawn. *)
Definition op_text (o : op) : list string :=
  match o with
  | OpCell c | OpMultiCell c => [cell_text c]
  | _ => []
  end.

Definition texts (ops : list op) : list string := flat_map op_text ops.

Definition row_texts (t : table) : list string :=
  [ "Problem:"%string; or_na (fst t); "Goal:"%string; or_na (snd t) ].

(** ** Two characters, as [int] reads them *)

(** A blank before or after the digits: the C blanks and, in a text that
    is not pure ASCII, the two blanks above 127. *)
Definition is_blank (c : ascii) : bool :=
  Py.c_isspace c || (Py.code c =? 133) || (Py.code c =? 160).

Definition is_sign (c : ascii) : bool :=
  Ascii.eqb c "+" || Ascii.eqb c "-".

Definition digit_or_zero (c : ascii) : Z :=
  match hex_digit c with
  | Some d => d
  | None => 0
  end.

(** What [int] makes of two characters, if anything: two digits, a blank
    or a sign and a digit, or a digit and a blank. *)
Definition pair_value (a b : ascii) : option Z :=
  if is_hex_digit a && is_hex_digit b then
    Some (16 * digit_or_zero a + digit_or_zero b)
  else if is_blank a && is_hex_digit b then Some (digit_or_zero b)
  else if is_hex_digit a && is_blank b then Some (digit_or_zero a)
  else if Ascii.eqb a "+" && is_hex_digit b then Some (digit_or_zero b)
  else if Ascii.eqb a "-" && is_hex_digit b then Some (- digit_or_zero b)
  else None.

Definition pair_agrees (a b : ascii) : bool :=
  match Py.int16 (pair_of a b), pair_value a b with
  | Ok v, Some v' => v =? v'
  | Raise _, None => true
  | _, _ => false
  end.

(** A doubled character, as [int] reads it, against its digit. *)
Definition doubled_agrees (c : ascii) : bool :=
  match pair_value c c with
  | Some v => is_hex_digit c && (v =? 17 * digit_or_zero c)
  | None => negb (is_hex_digit c)
  end.

(** The colours of the five names. *)
Definition NAMED_RGB : list (string * list Z) :=
  [ ("white"%string, [255; 255; 255]);
    ("black"%string, [0; 0; 0]);
    ("red"%string, [255; 0; 0]);
    ("green"%string, [0; 255; 0]);
    ("blue"%string, [0; 0; 255]) ].

(** ** Properties of the built-ins *)

Lemma is_hex_digit_in (c : ascii) : is_hex_digit c = true -> In c hex_chars.
Proof.
  destruct c as [[] [] [] [] [] [] [] []]; unfold is_hex_digit; simpl;
    intros H; try discriminate H; tauto.
Qed.

(** One check over all pairs of digits settles a property of two digits. *)
Lemma hex_pairs_ind (P : ascii -> ascii -> bool) :
  forallb (fun a => forallb (P a) hex_chars) hex_chars = true ->
  forall a b, is_hex_digit a = true -> is_hex_digit b = true -> P a b = true.
Proof.
  intros H a b Ha Hb.
  rewrite forallb_forall in H.
  specialize (H a (is_hex_digit_in a Ha)).
  rewrite forallb_forall in H.
  exact (H b (is_hex_digit_in b Hb)).
Qed.

Lemma result_Z_eqb_eq (r : result Z) (z : Z) : result_Z_eqb r z = true -> r = Ok z.
Proof.
  destruct r as [v|e]; simpl; intros H; [|discriminate].
  apply Z.eqb_eq in H. now subst.
Qed.

(** [int] of two hexadecimal digits is the number they denote. *)
Lemma int16_hex_pair (a b : ascii) :
  is_hex_digit a = true -> is_hex_digit b = true ->
  Py.int16 (String a (String b EmptyString))
  = Ok (hex_number (String a (String b EmptyString))).
Proof.
  intros Ha Hb. apply result_Z_eqb_eq.
  apply (hex_pairs_ind
           (fun a b => result_Z_eqb (Py.int16 (String a (String b EmptyString)))
                                    (hex_number (String a (String b EmptyString)))));
    [vm_compute; reflexivity | exact Ha | exact Hb].
Qed.

Lemma lower_length (s : string) : String.length (Py.lower s) = String.length s.
Proof. induction s as [|c r IH]; simpl; congruence. Qed.

Lemma hex_digit_lower_not_r (c : ascii) :
  is_hex_digit c = true -> Py.lower_char c <> "r"%char.
Proof.
  intros H. apply is_hex_digit_in in H. simpl in H.
  repeat (destruct H as [<-|H]; [vm_compute; discriminate|]). contradiction.
Qed.

Lemma hex_digit_not_marker (c : ascii) :
  is_hex_digit c = true -> Ascii.eqb c "#" = false.
Proof.
  intros H. apply is_hex_digit_in in H. simpl in H.
  repeat (destruct H as [<-|H]; [reflexivity|]). contradiction.
Qed.

(** A lookup misses when the key is none of the five names. *)
Lemma dict_get_miss (key default : string) :
  (forall k v, In (k, v) NAMED_COLORS -> k <> key) ->
  dict_get NAMED_COLORS key default = default.
Proof.
  generalize NAMED_COLORS as d.
  induction d as [|[k v] d IH]; intros H; simpl; [reflexivity|].
  destruct (String.eqb_spec k key) as [E|_].
  - exfalso. apply (H k v); [left; reflexivity | exact E].
  - apply IH. intros k' v' Hin. apply (H k' v'). right. exact Hin.
Qed.

(** No text that begins with the marker is a colour name. *)
Lemma resolve_name_marker (s : string) :
  resolve_name (String "#" s) = String "#" s.
Proof. reflexivity. Qed.

(** Three or six hexadecimal digits are no colour name. *)
Lemma resolve_name_hex (s : string) :
  all_hex s = true -> (String.length s = 3 \/ String.length s = 6)%nat ->
  resolve_name s = s.
Proof.
  intros Hhex Hlen. unfold resolve_name. apply dict_get_miss.
  intros k v Hin E.
  assert (Hl : String.length k = String.length s)
    by (rewrite E; apply lower_length).
  simpl in Hin.
  destruct Hin as [Hin|[Hin|[Hin|[Hin|[Hin|[]]]]]];
    injection Hin as <- _; simpl in Hl; try lia.
  destruct s as [|c r]; [discriminate|].
  simpl in E. injection E as E _.
  unfold all_hex in Hhex. simpl in Hhex. apply andb_prop in Hhex as [Hc _].
  symmetry in E. exact (hex_digit_lower_not_r c Hc E).
Qed.

Lemma strip_marker_hex (s : string) :
  all_hex s = true -> strip_marker s = s.
Proof.
  intros H. destruct s as [|c r]; [reflexivity|].
  unfold all_hex in H. simpl in H. apply andb_prop in H as [Hc _].
  unfold strip_marker. simpl. now rewrite (hex_digit_not_marker c Hc).
Qed.

Lemma lstrip_markers (n : nat) (s : string) :
  Py.startswith s "#" = false ->
  Py.lstrip (String.append (markers n) s) "#" = s.
Proof.
  intros H. induction n as [|n IH]; simpl.
  - destruct s as [|c r]; [reflexivity|]. simpl in *. now rewrite H.
  - exact IH.
Qed.

(** ** The colour resolver: six and three digits *)

(** What [hex_to_rgb] does once the name is resolved and the markers are
    stripped, for a text of six characters: the three slices are parsed. *)
Lemma hex_to_rgb_six_chars (color : string) (r1 r2 g1 g2 b1 b2 : ascii) :
  strip_marker (resolve_name color) = six r1 r2 g1 g2 b1 b2 ->
  hex_to_rgb (PyStr color)
  = reraise_as "Invalid hex color value"
      (collect Py.int16 [pair_of r1 r2; pair_of g1 g2; pair_of b1 b2]).
Proof.
  intros H. unfold hex_to_rgb. rewrite H. reflexivity.
Qed.

Lemma hex_to_rgb_three_chars (color : string) (a b c : ascii) :
  strip_marker (resolve_name color) = String a (String b (String c EmptyString)) ->
  hex_to_rgb (PyStr color)
  = reraise_as "Invalid hex color value"
      (collect Py.int16 [pair_of a a; pair_of b b; pair_of c c]).
Proof.
  intros H. unfold hex_to_rgb. rewrite H. reflexivity.
Qed.

Lemma collect_hex_pairs (r1 r2 g1 g2 b1 b2 : ascii) :
  all_hex (six r1 r2 g1 g2 b1 b2) = true ->
  collect Py.int16 [pair_of r1 r2; pair_of g1 g2; pair_of b1 b2]
  = Ok [hex_number (pair_of r1 r2); hex_number (pair_of g1 g2);
        hex_number (pair_of b1 b2)].
Proof.
  unfold all_hex, six. simpl forallb. intros H.
  repeat (apply andb_prop in H as [? H]).
  unfold collect, pair_of.
  rewrite !int16_hex_pair by assumption. reflexivity.
Qed.

(** C1: once the colour name is resolved and the markers are stripped, a
    text of exactly six hexadecimal digits [rrggbb] yields the three
    numbers [rr], [gg] and [bb] denote in base 16; and ["#abc"] resolves as
    ["#aabbcc"] does, to (170, 187, 204). *)
Theorem hex_to_rgb_six_digits (color : string) (r1 r2 g1 g2 b1 b2 : ascii) :
  strip_marker (resolve_name color) = six r1 r2 g1 g2 b1 b2 ->
  all_hex (six r1 r2 g1 g2 b1 b2) = true ->
  hex_to_rgb (PyStr color)
  = Ok [hex_number (pair_of r1 r2); hex_number (pair_of g1 g2);
        hex_number (pair_of b1 b2)]
  /\ hex_to_rgb (PyStr "#abc") = hex_to_rgb (PyStr "#aabbcc")
  /\ hex_to_rgb (PyStr "#abc") = Ok [170; 187; 204].
Proof.
  intros Hs Hhex. split; [|split; reflexivity].
  rewrite (hex_to_rgb_six_chars color r1 r2 g1 g2 b1 b2 Hs).
  rewrite (collect_hex_pairs r1 r2 g1 g2 b1 b2 Hhex). reflexivity.
Qed.

(** The name ["RED"] resolves to the six digits FF0000. *)
Lemma hex_to_rgb_six_digits_witness :
  hex_to_rgb (PyStr "RED") = Ok [255; 0; 0]
  /\ hex_to_rgb (PyStr "#abc") = hex_to_rgb (PyStr "#aabbcc")
  /\ hex_to_rgb (PyStr "#abc") = Ok [170; 187; 204].
Proof.
  exact (hex_to_rgb_six_digits "RED" "F" "F" "0" "0" "0" "0" eq_refl eq_refl).
Defined.

(** Six hexadecimal digits given as they are resolve to their three
    numbers. *)
Lemma hex_to_rgb_plain_six (r1 r2 g1 g2 b1 b2 : ascii) :
  all_hex (six r1 r2 g1 g2 b1 b2) = true ->
  hex_to_rgb (PyStr (six r1 r2 g1 g2 b1 b2))
  = Ok [hex_number (pair_of r1 r2); hex_number (pair_of g1 g2);
        hex_number (pair_of b1 b2)].
Proof.
  intros Hhex.
  rewrite (hex_to_rgb_six_chars _ r1 r2 g1 g2 b1 b2).
  - now rewrite (collect_hex_pairs r1 r2 g1 g2 b1 b2 Hhex).
  - rewrite resolve_name_hex by (auto; right; reflexivity).
    apply strip_marker_hex, Hhex.
Qed.

(** C7: three hexadecimal digits [abc] resolve to what the six digits
    [aabbcc] resolve to, each digit doubled. *)
Theorem hex_to_rgb_three_digits (a b c : ascii) :
  all_hex (String a (String b (String c EmptyString))) = true ->
  hex_to_rgb (PyStr (String a (String b (String c EmptyString))))
  = hex_to_rgb (PyStr (six a a b b c c))
  /\ hex_to_rgb (PyStr (six a a b b c c))
     = Ok [hex_number (pair_of a a); hex_number (pair_of b b);
           hex_number (pair_of c c)].
Proof.
  intros Hhex.
  assert (H6 : all_hex (six a a b b c c) = true).
  { unfold all_hex in *. simpl in *.
    repeat (apply andb_prop in Hhex as [? Hhex]).
    repeat (apply andb_true_intro; split); assumption. }
  rewrite (hex_to_rgb_plain_six a a b b c c H6). split; [|reflexivity].
  rewrite (hex_to_rgb_three_chars _ a b c).
  - now rewrite (collect_hex_pairs a a b b c c H6).
  - rewrite resolve_name_hex by (auto; left; reflexivity).
    apply strip_marker_hex, Hhex.
Qed.

Lemma hex_to_rgb_three_digits_witness :
  hex_to_rgb (PyStr "abc") = hex_to_rgb (PyStr "aabbcc")
  /\ hex_to_rgb (PyStr "aabbcc") = Ok [170; 187; 204].
Proof.
  exact (hex_to_rgb_three_digits "a" "b" "c" eq_refl).
Defined.

(** ** The colour resolver: what is refused and what is not *)

(** A text whose length, once the name is resolved and the markers are
    stripped, is neither 3 nor 6 is refused. *)
Lemma hex_to_rgb_bad_length (color : string) :
  Py.len (strip_marker (resolve_name color)) <> 3 ->
  Py.len (strip_marker (resolve_name color)) <> 6 ->
  hex_to_rgb (PyStr color) = Raise (ValueError "Invalid hex color format").
Proof.
  intros H3 H6. unfold hex_to_rgb.
  apply Z.eqb_neq in H3, H6. now rewrite H3, H6.
Qed.

Lemma hex_to_rgb_not_a_string (color : py_value) :
  (forall s, color <> PyStr s) ->
  hex_to_rgb color = Raise (ValueError "Color must be a string").
Proof.
  intros H. destruct color as [s| |]; [now destruct (H s)|reflexivity..].
Qed.

Lemma length_three (s : string) :
  Py.len s = 3 -> exists a b c, s = String a (String b (String c EmptyString)).
Proof.
  unfold Py.len. intros H.
  destruct s as [|a [|b [|c [|d r]]]]; simpl in H; try lia.
  now exists a, b, c.
Qed.

Lemma length_six (s : string) :
  Py.len s = 6 -> exists r1 r2 g1 g2 b1 b2, s = six r1 r2 g1 g2 b1 b2.
Proof.
  unfold Py.len. intros H.
  destruct s as [|r1 [|r2 [|g1 [|g2 [|b1 [|b2 [|c r]]]]]]]; simpl in H; try lia.
  now exists r1, r2, g1, g2, b1, b2.
Qed.

(** A successful resolution is the parse of three pairs of characters. *)
Lemma hex_to_rgb_ok_inv (color : py_value) (rgb : list Z) :
  hex_to_rgb color = Ok rgb ->
  exists p1 p2 p3 v1 v2 v3,
    rgb = [v1; v2; v3]
    /\ Py.int16 (pair_of (fst p1) (snd p1)) = Ok v1
    /\ Py.int16 (pair_of (fst p2) (snd p2)) = Ok v2
    /\ Py.int16 (pair_of (fst p3) (snd p3)) = Ok v3.
Proof.
  intros H. destruct color as [color| |]; try discriminate H.
  assert (Hpairs : forall a1 a2 b1 b2 c1 c2,
             reraise_as "Invalid hex color value"
               (collect Py.int16 [pair_of a1 a2; pair_of b1 b2; pair_of c1 c2])
             = Ok rgb ->
             exists p1 p2 p3 v1 v2 v3,
               rgb = [v1; v2; v3]
               /\ Py.int16 (pair_of (fst p1) (snd p1)) = Ok v1
               /\ Py.int16 (pair_of (fst p2) (snd p2)) = Ok v2
               /\ Py.int16 (pair_of (fst p3) (snd p3)) = Ok v3).
  { intros a1 a2 b1 b2 c1 c2 E. unfold collect in E.
    destruct (Py.int16 (pair_of a1 a2)) as [v1|[m1]] eqn:E1; [|discriminate E].
    destruct (Py.int16 (pair_of b1 b2)) as [v2|[m2]] eqn:E2; [|discriminate E].
    destruct (Py.int16 (pair_of c1 c2)) as [v3|[m3]] eqn:E3; [|discriminate E].
    simpl in E. injection E as <-.
    exists (a1, a2), (b1, b2), (c1, c2), v1, v2, v3. auto. }
  destruct (Z.eq_dec (Py.len (strip_marker (resolve_name color))) 3) as [L3|N3].
  - destruct (length_three _ L3) as (a & b & c & Es).
    rewrite (hex_to_rgb_three_chars color a b c Es) in H. eauto.
  - destruct (Z.eq_dec (Py.len (strip_marker (resolve_name color))) 6) as [L6|N6].
    + destruct (length_six _ L6) as (r1 & r2 & g1 & g2 & b1 & b2 & Es).
      rewrite (hex_to_rgb_six_chars color r1 r2 g1 g2 b1 b2 Es) in H. eauto.
    + rewrite (hex_to_rgb_bad_length color N3 N6) in H. discriminate H.
Qed.

(** A successful resolution has exactly three values. *)
Lemma hex_to_rgb_three_values (color : py_value) (rgb : list Z) :
  hex_to_rgb color = Ok rgb -> List.length rgb = 3%nat.
Proof.
  intros H. apply hex_to_rgb_ok_inv in H as (? & ? & ? & ? & ? & ? & -> & _).
  reflexivity.
Qed.

Lemma in_all_chars (c : ascii) : In c all_chars.
Proof.
  unfold all_chars. rewrite <- (ascii_nat_embedding c).
  apply in_map, in_seq. pose proof (nat_ascii_bounded c). lia.
Qed.

(** Whatever [int] accepts of two characters lies between -15 and 255. *)
Lemma int16_pair_range (a b : ascii) (v : Z) :
  Py.int16 (pair_of a b) = Ok v -> -15 <= v <= 255.
Proof.
  intros H.
  assert (A : forallb (fun a => forallb (channel_in_range a) all_chars) all_chars
              = true) by (vm_compute; reflexivity).
  rewrite forallb_forall in A. specialize (A a (in_all_chars a)).
  rewrite forallb_forall in A. specialize (A b (in_all_chars b)).
  unfold channel_in_range in A. rewrite H in A. lia.
Qed.

(** The values of a successful resolution lie between -15 and 255. *)
Lemma hex_to_rgb_range (color : py_value) (rgb : list Z) :
  hex_to_rgb color = Ok rgb -> Forall (fun v => -15 <= v <= 255) rgb.
Proof.
  intros H.
  apply hex_to_rgb_ok_inv in H
    as (p1 & p2 & p3 & v1 & v2 & v3 & -> & H1 & H2 & H3).
  repeat constructor; eapply int16_pair_range; eassumption.
Qed.

(** C2: the text ["+1+2+3"] has six characters and a sign, which is no
    hexadecimal digit, in each of its three groups; it is not refused but
    resolves to (1, 2, 3). *)
Theorem hex_to_rgb_accepts_signs :
  hex_to_rgb (PyStr "+1+2+3") = Ok [1; 2; 3]
  /\ is_hex_digit "+" = false
  /\ Py.len (strip_marker (resolve_name "+1+2+3")) = 6.
Proof. repeat split. Qed.

(** C3: the text ["-1-2-3"] resolves, and to three negative values. *)
Theorem hex_to_rgb_negative_channels :
  hex_to_rgb (PyStr "-1-2-3") = Ok [-1; -2; -3].
Proof. reflexivity. Qed.

(** ** The font-fit rule *)

Section FontFit.

Variable string_width : string -> string -> Z -> string -> Q.

Lemma adjust_loop_step (pdf : FPDF) (text : string) (max_width : Q)
      (font_size : Z) :
  adjust_loop string_width pdf text max_width font_size
  = if keeps_shrinking string_width pdf text max_width font_size
    then adjust_loop string_width
                     (Fpdf.set_font pdf "NotoSans" "" (font_size - 1))
                     text max_width (font_size - 1)
    else (pdf, font_size).
Proof.
  funelim (adjust_loop string_width pdf text max_width font_size).
  - rewrite continue. reflexivity.
  - rewrite e. reflexivity.
Qed.

Lemma keeps_shrinking_true (pdf : FPDF) (text : string) (max_width : Q)
      (font_size : Z) :
  keeps_shrinking string_width pdf text max_width font_size = true
  <-> (max_width < get_string_width string_width pdf text)%Q /\ 6 < font_size.
Proof.
  unfold keeps_shrinking.
  rewrite andb_true_iff, negb_true_iff, Z.gtb_lt.
  destruct (Qle_bool (get_string_width string_width pdf text) max_width) eqn:E.
  - apply Qle_bool_iff in E. split; [intros [D _]; discriminate D|].
    intros [L _]. exfalso. exact (Qlt_not_le _ _ L E).
  - split; intros [_ G]; (split; [|exact G]); [|reflexivity].
    apply Qnot_le_lt. intros L. apply Qle_bool_iff in L. congruence.
Qed.

(** The size returned lies between the smaller of the starting size and
    6, and the starting size. *)
Lemma adjust_loop_bounds (n : nat) :
  forall pdf text max_width font_size,
    Z.to_nat (font_size - 6) = n ->
    Z.min font_size 6
    <= snd (adjust_loop string_width pdf text max_width font_size)
    <= font_size.
Proof.
  induction n as [|n IH]; intros pdf text max_width font_size Hn;
    rewrite adjust_loop_step;
    destruct (keeps_shrinking string_width pdf text max_width font_size) eqn:K;
    try (simpl; lia);
    apply keeps_shrinking_true in K as [_ G].
  - lia.
  - specialize (IH (Fpdf.set_font pdf "NotoSans" "" (font_size - 1))
                   text max_width (font_size - 1)).
    lia.
Qed.

(** The loop sets the font and nothing else. *)
Lemma adjust_loop_keeps (n : nat) :
  forall pdf text max_width font_size,
    Z.to_nat (font_size - 6) = n ->
    let pdf' := fst (adjust_loop string_width pdf text max_width font_size) in
    content pdf' = content pdf /\ fill_color pdf' = fill_color pdf
    /\ text_color pdf' = text_color pdf.
Proof.
  induction n as [|n IH]; intros pdf text max_width font_size Hn;
    rewrite adjust_loop_step;
    destruct (keeps_shrinking string_width pdf text max_width font_size) eqn:K;
    try (simpl; auto; fail);
    apply keeps_shrinking_true in K as [_ G].
  - lia.
  - apply (IH (Fpdf.set_font pdf "NotoSans" "" (font_size - 1))). lia.
Qed.

Lemma regular_at_set_font (pdf : FPDF) (size : Z) :
  size <> 0 -> regular_at (Fpdf.set_font pdf "NotoSans" "" size) size.
Proof.
  intros H. unfold regular_at. simpl.
  apply Z.eqb_neq in H. rewrite H. auto.
Qed.

(** A text that overflows at every size from 6 to the starting size is
    set at 6. *)
Lemma adjust_loop_floor (n : nat) :
  forall pdf text max_width font_size,
    Z.to_nat (font_size - 6) = n ->
    6 <= font_size ->
    regular_at pdf font_size ->
    (forall k, 6 <= k <= font_size -> overflows_at string_width text max_width k) ->
    snd (adjust_loop string_width pdf text max_width font_size) = 6.
Proof.
  induction n as [|n IH]; intros pdf text max_width font_size Hn H6 Hreg Hover;
    rewrite adjust_loop_step;
    destruct (keeps_shrinking string_width pdf text max_width font_size) eqn:K.
  - apply keeps_shrinking_true in K as [_ G]. lia.
  - simpl. lia.
  - apply keeps_shrinking_true in K as [_ G].
    apply IH; [lia | lia | apply regular_at_set_font; lia |].
    intros k Hk. apply Hover. lia.
  - exfalso.
    assert (K' : keeps_shrinking string_width pdf text max_width font_size = true).
    { apply keeps_shrinking_true. split; [|lia].
      destruct Hreg as (Hfam & Hsty & Hsize). unfold get_string_width.
      rewrite Hfam, Hsty, Hsize. apply Hover. lia. }
    congruence.
Qed.

(** A text that is at least as wide as another keeps the loop going at
    least as long, so it is set no larger. *)
Lemma adjust_loop_wider (short long : string) (n : nat) :
  (forall family style size,
      0 <= size ->
      (string_width family style size short
       <= string_width family style size long)%Q) ->
  forall pdf max_width font_size,
    Z.to_nat (font_size - 6) = n ->
    0 <= font_size_pt pdf ->
    snd (adjust_loop string_width pdf long max_width font_size)
    <= snd (adjust_loop string_width pdf short max_width font_size).
Proof.
  intros Hwide.
  induction n as [|n IH]; intros pdf max_width font_size Hn Hpos;
    rewrite (adjust_loop_step pdf short);
    destruct (keeps_shrinking string_width pdf short max_width font_size) eqn:K.
  - apply keeps_shrinking_true in K as [_ G]. lia.
  - pose proof (adjust_loop_bounds _ pdf long max_width font_size eq_refl).
    simpl. lia.
  - apply keeps_shrinking_true in K as [W G].
    assert (K' : keeps_shrinking string_width pdf long max_width font_size = true).
    { apply keeps_shrinking_true. split; [|exact G].
      eapply Qlt_le_trans; [exact W|]. apply Hwide, Hpos. }
    rewrite (adjust_loop_step pdf long), K'. apply IH; [lia|].
    pose proof (regular_at_set_font pdf (font_size - 1)) as (_ & _ & ->); lia.
  - pose proof (adjust_loop_bounds _ pdf long max_width font_size eq_refl).
    simpl. lia.
Qed.

End FontFit.

Lemma fixed_pitch_width_size (text : string) (k : Z) :
  6 <= k ->
  Qle (fixed_pitch_width "NotoSans" "" 6 text)
      (fixed_pitch_width "NotoSans" "" k text).
Proof.
  intros H. unfold fixed_pitch_width, Qle. simpl. nia.
Qed.

Lemma append_length (a b : string) :
  String.length (String.append a b) = (String.length a + String.length b)%nat.
Proof. induction a as [|c a IH]; simpl; congruence. Qed.

Lemma fixed_pitch_width_superstring (family style : string) (size : Z)
      (s pre post : string) :
  0 <= size ->
  (fixed_pitch_width family style size s
   <= fixed_pitch_width family style size
        (String.append pre (String.append s post)))%Q.
Proof.
  intros H. unfold fixed_pitch_width, Qle. simpl.
  rewrite !append_length. nia.
Qed.

(** C5: from a starting size of at least 6 (both calls start from 12) the
    size returned is never below 6 and never above the starting size.
    When the document is in the regular face at the starting size, as it
    is at both calls, and the width of the text does not shrink as the
    size grows, a text that still overflows the maximum width at 6 is set
    at 6, and no lower.  The rule draws nothing and cuts no text: the
    content of the document stays as it was. *)
Theorem adjust_font_size_floor
        (string_width : string -> string -> Z -> string -> Q)
        (pdf : FPDF) (text : string) (max_width : Q) (start : Z) :
  6 <= start ->
  let chosen := snd (adjust_font_size string_width pdf text max_width start) in
  6 <= chosen <= start
  /\ (regular_at pdf start ->
      (forall k, 6 <= k <= start ->
                 Qle (string_width "NotoSans"%string EmptyString 6 text)
                     (string_width "NotoSans"%string EmptyString k text)) ->
      overflows_at string_width text max_width 6 ->
      chosen = 6)
  /\ content (fst (adjust_font_size string_width pdf text max_width start))
     = content pdf.
Proof.
  intros H6 chosen. subst chosen. unfold adjust_font_size.
  pose proof (adjust_loop_bounds string_width _ pdf text max_width start eq_refl)
    as B.
  pose proof (adjust_loop_keeps string_width _ pdf text max_width start eq_refl)
    as (K & _).
  split; [lia|]. split; [|exact K].
  intros Hreg Hgrow Hover.
  apply (adjust_loop_floor string_width _ pdf text max_width start eq_refl H6 Hreg).
  intros k Hk. unfold overflows_at in *.
  eapply Qlt_le_trans; [exact Hover|]. apply Hgrow, Hk.
Qed.

(** A text of 17 characters in a cell 10 wide: it overflows at every size
    down to 6 and is set at 6. *)
Lemma adjust_font_size_floor_witness :
  6 <= snd (adjust_font_size fixed_pitch_width regular12 "Sub-second builds" 10 12)
    <= 12
  /\ snd (adjust_font_size fixed_pitch_width regular12 "Sub-second builds" 10 12)
     = 6.
Proof.
  destruct (adjust_font_size_floor
              fixed_pitch_width regular12 "Sub-second builds" 10 12)
    as (Hbounds & Hfloor & _).
  - lia.
  - split; [exact Hbounds|]. apply Hfloor.
    + repeat split.
    + intros k Hk. apply fixed_pitch_width_size. lia.
    + reflexivity.
Defined.

(** C6: in a font in which, at every size from 0 up, a text is never
    narrower than a text it contains, a strict superstring is never set
    larger than the text it contains, from the same document, starting
    size and maximum width. *)
Theorem adjust_font_size_monotonic
        (string_width : string -> string -> Z -> string -> Q)
        (pdf : FPDF) (short long : string) (max_width : Q) (start : Z) :
  (forall family style size s pre post,
      0 <= size ->
      Qle (string_width family style size s)
          (string_width family style size
                        (String.append pre (String.append s post)))) ->
  0 <= font_size_pt pdf ->
  strict_superstring long short ->
  snd (adjust_font_size string_width pdf long max_width start)
  <= snd (adjust_font_size string_width pdf short max_width start).
Proof.
  intros Hmono Hpos [(pre & post & ->) _]. unfold adjust_font_size.
  apply (adjust_loop_wider string_width short _ (Z.to_nat (start - 6)));
    [|reflexivity|exact Hpos].
  intros family style size Hsize. apply Hmono, Hsize.
Qed.

(** A text of 27 characters is set at 12 and a text of 65 characters that
    contains it at 10. *)
Lemma adjust_font_size_monotonic_witness :
  snd (adjust_font_size fixed_pitch_width regular12
         "Builds are slow: Slow builds on every commit, every day, all year" 150 12)
  <= snd (adjust_font_size fixed_pitch_width regular12 "Slow builds on every commit" 150 12).
Proof.
  apply (adjust_font_size_monotonic fixed_pitch_width regular12).
  - intros family style size s pre post Hsize.
    apply fixed_pitch_width_superstring, Hsize.
  - simpl. lia.
  - split; [|discriminate].
    exists "Builds are slow: "%string, ", every day, all year"%string. reflexivity.
Defined.

(** ** The objective table and the export *)

Lemma content_ln (pdf : FPDF) (h : Z) :
  content (Fpdf.ln pdf h) = content pdf ++ [OpLn h].
Proof. reflexivity. Qed.

Lemma content_cell (pdf : FPDF) (w h : Z) (text : string) (border : Z)
      (fill : bool) (align : string) :
  content (Fpdf.cell pdf w h text border fill align)
  = content pdf ++ [OpCell (Fpdf.current_cell pdf w h text border fill align)].
Proof. reflexivity. Qed.

Lemma content_set_font (pdf : FPDF) (family style : string) (size : Z) :
  content (Fpdf.set_font pdf family style size) = content pdf.
Proof. reflexivity. Qed.

Lemma content_set_fill_color (pdf : FPDF) (rgb : list Z) :
  content (Fpdf.set_fill_color pdf rgb) = content pdf.
Proof. reflexivity. Qed.

Lemma content_set_text_color (pdf : FPDF) (rgb : list Z) :
  content (Fpdf.set_text_color pdf rgb) = content pdf.
Proof. reflexivity. Qed.

Create Rewrite HintDb fpdf_content.

#[local] Hint Rewrite content_ln content_cell content_set_font
  content_set_fill_color content_set_text_color : fpdf_content.

Section ExportProperties.

Variable string_width : string -> string -> Z -> string -> Q.

Lemma adjust_font_size_fits (pdf : FPDF) (text : string) :
  regular_at pdf 12 -> fits_at_start string_width text ->
  adjust_font_size string_width pdf text (inject_Z cell_width_text) 12
  = (pdf, 12).
Proof.
  intros (Hfam & Hsty & Hsize) Hfit.
  unfold adjust_font_size. rewrite adjust_loop_step.
  destruct (keeps_shrinking string_width pdf text (inject_Z cell_width_text) 12)
           eqn:K; [|reflexivity].
  apply keeps_shrinking_true in K as [W _]. exfalso.
  unfold get_string_width in W. rewrite Hfam, Hsty, Hsize in W.
  exact (Qlt_not_le _ _ W Hfit).
Qed.

Lemma value_cell_adds (pdf : FPDF) (text : string) :
  exists c,
    content (value_cell string_width pdf text) = content pdf ++ [OpCell c]
    /\ value_cell_of string_width text c.
Proof.
  unfold value_cell.
  set (pdf12 := Fpdf.set_font pdf "NotoSans" "" 12).
  pose proof (adjust_loop_keeps string_width _ pdf12 (or_na text) (inject_Z cell_width_text)
                                12 eq_refl) as (Hc & _ & _).
  pose proof (adjust_loop_bounds string_width _ pdf12 (or_na text)
                                 (inject_Z cell_width_text) 12 eq_refl) as Hb.
  pose proof (adjust_font_size_fits pdf12 (or_na text)) as Hfit.
  unfold adjust_font_size in *.
  destruct (adjust_loop string_width pdf12 (or_na text)
                        (inject_Z cell_width_text) 12) as [pdf' size] eqn:E.
  simpl in Hc, Hb.
  eexists. split.
  - unfold Fpdf.cell, Fpdf.emit. simpl. rewrite Hc. reflexivity.
  - unfold value_cell_of. simpl.
    assert (Hz : (size =? 0) = false) by (apply Z.eqb_neq; lia).
    rewrite Hz. repeat split; try lia.
    intros F. specialize (Hfit (regular_at_set_font pdf 12 ltac:(lia)) F).
    congruence.
Qed.

Lemma render_table_adds (self : App) (pdf pdf' : FPDF) (t : table) :
  render_table string_width self pdf t = Ok pdf' ->
  exists ops, content pdf' = content pdf ++ ops /\ rows_of string_width t ops.
Proof.
  destruct t as [problem_text goal_text]. unfold render_table.
  destruct (hex_to_rgb (PyStr (goal_row_color self))) as [fill|e];
    [|discriminate].
  destruct (hex_to_rgb (PyStr (goal_font_color self))) as [ink|e];
    [|discriminate].
  simpl bind. intros H. injection H as <-.
  match goal with
  | |- context [value_cell string_width ?p goal_text] =>
      destruct (value_cell_adds p goal_text) as (vg & Hg & Hvg)
  end.
  match type of Hg with
  | context [value_cell string_width ?p problem_text] =>
      destruct (value_cell_adds p problem_text) as (vp & Hp & Hvp)
  end.
  eexists. split.
  - rewrite content_ln, Hg. autorewrite with fpdf_content.
    rewrite Hp. autorewrite with fpdf_content.
    rewrite <- !app_assoc. simpl app. reflexivity.
  - unfold rows_of. do 4 eexists. split; [reflexivity|]. simpl. auto.
Qed.

Lemma render_tables_extends (self : App) (ts : list table) :
  forall pdf pdf',
    render_tables string_width self pdf ts = Ok pdf' ->
    exists ops, content pdf' = content pdf ++ ops.
Proof.
  induction ts as [|t ts IH]; intros pdf pdf' H; simpl in H.
  - injection H as <-. exists []. now rewrite app_nil_r.
  - destruct (render_table string_width self pdf t) as [pdf1|e] eqn:E;
      [|discriminate].
    simpl in H.
    destruct (render_table_adds self pdf pdf1 t E) as (ops1 & H1 & _).
    destruct (IH pdf1 pdf' H) as (ops2 & H2).
    exists (ops1 ++ ops2). now rewrite H2, H1, app_assoc.
Qed.

(** The rows of every table are in the document the loop leaves. *)
Lemma render_tables_rows (self : App) (ts : list table) (t : table) :
  In t ts ->
  forall pdf pdf',
    render_tables string_width self pdf ts = Ok pdf' ->
    exists before ops after,
      content pdf' = before ++ ops ++ after /\ rows_of string_width t ops.
Proof.
  induction ts as [|t' ts IH]; intros Hin pdf pdf' H; [destruct Hin|].
  simpl in H.
  destruct (render_table string_width self pdf t') as [pdf1|e] eqn:E;
    [|discriminate].
  simpl in H. destruct Hin as [->|Hin].
  - destruct (render_table_adds self pdf pdf1 t E) as (ops & H1 & Hrows).
    destruct (render_tables_extends self ts pdf1 pdf' H) as (after & H2).
    exists (content pdf), ops, after. split; [|exact Hrows].
    now rewrite H2, H1, app_assoc.
  - exact (IH Hin pdf1 pdf' H).
Qed.

End ExportProperties.

(** C8: in the document the loop over the tables leaves, every table has
    its two rows; the value cell of an empty problem or goal text holds
    ["N/A"], and the value cell of a text that is not empty and fits the
    cell width in the regular face at size 12 is set at size 12. *)
Theorem render_tables_value_cells
        (string_width : string -> string -> Z -> string -> Q)
        (self : App) (pdf pdf' : FPDF) (ts : list table)
        (problem_text goal_text : string) :
  render_tables string_width self pdf ts = Ok pdf' ->
  In (problem_text, goal_text) ts ->
  exists before lp vp lg vg after,
    content pdf'
    = before ++ [OpCell lp; OpCell vp; OpLn 10; OpCell lg; OpCell vg; OpLn 20]
             ++ after
    /\ cell_text lp = "Problem:"%string /\ cell_text lg = "Goal:"%string
    /\ cell_w vp = 150 /\ cell_w vg = 150
    /\ (problem_text = EmptyString -> cell_text vp = "N/A"%string)
    /\ (goal_text = EmptyString -> cell_text vg = "N/A"%string)
    /\ (problem_text <> EmptyString ->
        cell_text vp = problem_text
        /\ (fits_at_start string_width problem_text -> cell_font_size vp = 12))
    /\ (goal_text <> EmptyString ->
        cell_text vg = goal_text
        /\ (fits_at_start string_width goal_text -> cell_font_size vg = 12)).
Proof.
  intros H Hin.
  destruct (render_tables_rows string_width self ts _ Hin pdf pdf' H)
    as (before & ops & after & Hc & lp & vp & lg & vg & -> & Hlp & Hvp & Hlg & Hvg).
  destruct Hvp as (Hwp & Htp & _ & Hfp), Hvg as (Hwg & Htg & _ & Hfg).
  simpl fst in *. simpl snd in *.
  exists before, lp, vp, lg, vg, after.
  repeat split; try assumption.
  - intros ->. exact Htp.
  - intros ->. exact Htg.
  - destruct problem_text; [congruence|exact Htp].
  - destruct problem_text; [congruence|exact Hfp].
  - destruct goal_text; [congruence|exact Htg].
  - destruct goal_text; [congruence|exact Hfg].
Qed.

Lemma render_tables_value_cells_witness :
  exists pdf',
    render_tables fixed_pitch_width one_goal Fpdf.new (tables one_goal) = Ok pdf'
    /\ exists vp vg,
         In (OpCell vp) (content pdf') /\ In (OpCell vg) (content pdf')
         /\ cell_text vp = "N/A"%string
         /\ cell_text vg = "Sub-second builds"%string
         /\ cell_font_size vg = 12.
Proof.
  eexists. split; [reflexivity|].
  destruct (render_tables_value_cells
              fixed_pitch_width one_goal Fpdf.new _ (tables one_goal)
              "" "Sub-second builds" eq_refl (or_introl eq_refl))
    as (before & lp & vp & lg & vg & after & Hc & _ & _ & _ & _ & Hp & _ & _ & Hg).
  exists vp, vg. rewrite Hc.
  split; [apply in_or_app; right; simpl; auto 10|].
  split; [apply in_or_app; right; simpl; auto 10|].
  split; [exact (Hp eq_refl)|].
  destruct Hg as [Ht Hs]; [discriminate|].
  split; [exact Ht|]. apply Hs. unfold fits_at_start, Qle. simpl. lia.
Defined.

(** ** Cancelling and completing the export *)

(** C9: when the document was assembled and the save dialog is cancelled,
    the export ends without an error, writes no file, and leaves the
    application as it was. *)
Theorem save_as_pdf_cancelled
        (string_width : string -> string -> Z -> string -> Q)
        (self : App) (pdf : FPDF) :
  assemble string_width self = Ok pdf ->
  save_as_pdf string_width self "" = Ok (self, None).
Proof.
  intros H. unfold save_as_pdf. rewrite H. reflexivity.
Qed.

Lemma save_as_pdf_cancelled_witness :
  save_as_pdf fixed_pitch_width three_objectives ""
  = Ok (three_objectives, None).
Proof.
  exact (save_as_pdf_cancelled fixed_pitch_width three_objectives _ eq_refl).
Defined.

(** A colour that does not resolve ends the export before the dialog: no
    file is written and the application is not reset. *)
Lemma save_as_pdf_invalid_color
      (string_width : string -> string -> Z -> string -> Q)
      (self : App) (file_path : string) (e : exn) :
  assemble string_width self = Raise e ->
  save_as_pdf string_width self file_path = Raise e.
Proof.
  intros H. unfold save_as_pdf. rewrite H. reflexivity.
Qed.

(** After an export that wrote a file, the four colours are the initial
    ones, the text is empty, one table with empty entries is left, and the
    alignment is what it was before the export. *)
Lemma save_as_pdf_exported
      (string_width : string -> string -> Z -> string -> Q)
      (self self' : App) (file_path : string) (written : string * FPDF) :
  save_as_pdf string_width self file_path = Ok (self', Some written) ->
  tables self <> [] ->
  about_bg_color self' = about_bg_color create_widgets
  /\ about_font_color self' = about_font_color create_widgets
  /\ goal_row_color self' = goal_row_color create_widgets
  /\ goal_font_color self' = goal_font_color create_widgets
  /\ about_text self' = EmptyString
  /\ tables self' = [(EmptyString, EmptyString)]
  /\ text_alignment self' = text_alignment self
  /\ fst written = file_path
  /\ assemble string_width self = Ok (snd written).
Proof.
  unfold save_as_pdf. intros H Hne.
  destruct (assemble string_width self) as [pdf|e]; [|discriminate].
  simpl in H. destruct file_path as [|c r]; [discriminate|].
  injection H as <- <-.
  destruct (tables self) as [|t ts] eqn:E; [congruence|].
  unfold reset_application. rewrite E. simpl. repeat split.
Qed.

(** C4: the export of three objectives with a centred text writes the file
    and leaves the initial colours and one table with empty entries, but
    the alignment is still ["C"], not the ["L"] the application starts
    with. *)
Theorem save_as_pdf_keeps_alignment :
  (exists pdf,
      save_as_pdf fixed_pitch_width three_objectives "proposal.pdf"
      = Ok (mkApp "black" "white" "black" "#ffffff" ""
                  [(EmptyString, EmptyString)] "C",
            Some ("proposal.pdf"%string, pdf)))
  /\ List.length (tables three_objectives) = 3%nat
  /\ text_alignment create_widgets = "L"%string.
Proof.
  split; [eexists; reflexivity|]. split; reflexivity.
Qed.


(** ** More on the colour resolver *)

(** [int] of two characters is what [pair_value] says, and fails where it
    says nothing. *)
Lemma int16_pair_value (a b : ascii) (v : Z) :
  Py.int16 (pair_of a b) = Ok v <-> pair_value a b = Some v.
Proof.
  assert (A : forallb (fun a => forallb (pair_agrees a) all_chars) all_chars
              = true) by (vm_compute; reflexivity).
  rewrite forallb_forall in A. specialize (A a (in_all_chars a)).
  rewrite forallb_forall in A. specialize (A b (in_all_chars b)).
  unfold pair_agrees in A.
  destruct (Py.int16 (pair_of a b)) as [w|e], (pair_value a b) as [w'|];
    try discriminate A.
  - apply Z.eqb_eq in A. subst w'. split; intros H; injection H as ->; reflexivity.
  - split; intros H; discriminate H.
Qed.

Lemma collect_three_pairs (a1 a2 b1 b2 c1 c2 : ascii) (rgb : list Z) :
  reraise_as "Invalid hex color value"
    (collect Py.int16 [pair_of a1 a2; pair_of b1 b2; pair_of c1 c2]) = Ok rgb
  <-> exists v1 v2 v3,
      pair_value a1 a2 = Some v1 /\ pair_value b1 b2 = Some v2
      /\ pair_value c1 c2 = Some v3 /\ rgb = [v1; v2; v3].
Proof.
  unfold collect. split.
  - intros E.
    destruct (Py.int16 (pair_of a1 a2)) as [v1|[m1]] eqn:E1; [|discriminate E].
    destruct (Py.int16 (pair_of b1 b2)) as [v2|[m2]] eqn:E2; [|discriminate E].
    destruct (Py.int16 (pair_of c1 c2)) as [v3|[m3]] eqn:E3; [|discriminate E].
    simpl in E. injection E as <-.
    exists v1, v2, v3. rewrite <- !int16_pair_value. auto.
  - intros (v1 & v2 & v3 & H1 & H2 & H3 & ->).
    apply int16_pair_value in H1, H2, H3. rewrite H1, H2, H3. reflexivity.
Qed.

(** A text of six characters with code points below 256, once the name is
    resolved and the markers are stripped, resolves exactly when each of
    its three pairs is two hexadecimal digits, a blank or a sign before a
    digit, or a digit before a blank, and then to the values of the pairs.
    (Above 255 [int] also reads the decimal digits and the blanks of other
    scripts; characters are code points of 0..255 here.) *)
Theorem hex_to_rgb_six_accepted (color : string) (r1 r2 g1 g2 b1 b2 : ascii)
        (rgb : list Z) :
  strip_marker (resolve_name color) = six r1 r2 g1 g2 b1 b2 ->
  (hex_to_rgb (PyStr color) = Ok rgb
   <-> exists v1 v2 v3,
       pair_value r1 r2 = Some v1 /\ pair_value g1 g2 = Some v2
       /\ pair_value b1 b2 = Some v3 /\ rgb = [v1; v2; v3]).
Proof.
  intros H. rewrite (hex_to_rgb_six_chars color r1 r2 g1 g2 b1 b2 H).
  apply collect_three_pairs.
Qed.

Lemma hex_to_rgb_six_accepted_witness :
  hex_to_rgb (PyStr "#0a-F7 ") = Ok [10; -15; 7]
  /\ exists v1 v2 v3,
      pair_value "0" "a" = Some v1 /\ pair_value "-" "F" = Some v2
      /\ pair_value "7" " " = Some v3 /\ [10; -15; 7] = [v1; v2; v3].
Proof.
  split; [reflexivity|].
  apply (hex_to_rgb_six_accepted "#0a-F7 " "0" "a" "-" "F" "7" " "
                                 [10; -15; 7] eq_refl).
  reflexivity.
Defined.

Lemma pair_value_doubled (c : ascii) (v : Z) :
  pair_value c c = Some v <-> is_hex_digit c = true /\ v = 17 * digit_or_zero c.
Proof.
  assert (A : forallb doubled_agrees all_chars = true) by (vm_compute; reflexivity).
  rewrite forallb_forall in A. specialize (A c (in_all_chars c)).
  unfold doubled_agrees in A.
  destruct (pair_value c c) as [w|].
  - apply andb_prop in A as [Hc Hw]. apply Z.eqb_eq in Hw. subst w.
    split; [intros H; injection H as <-; auto | intros [_ ->]; reflexivity].
  - apply negb_true_iff in A. split; [discriminate|]. intros [H _]. congruence.
Qed.

(** A text of three characters with code points below 256, once the name
    is resolved and the markers are stripped, resolves exactly when all
    three are hexadecimal digits, and then each channel is 17 times its
    digit: no sign and no blank is accepted in the short form.  (Above 255
    [int] also reads the decimal digits of other scripts; characters are
    code points of 0..255 here.) *)
Theorem hex_to_rgb_three_accepted (color : string) (a b c : ascii)
        (rgb : list Z) :
  strip_marker (resolve_name color) = String a (String b (String c EmptyString)) ->
  (hex_to_rgb (PyStr color) = Ok rgb
   <-> all_hex (String a (String b (String c EmptyString))) = true
       /\ rgb = [17 * digit_or_zero a; 17 * digit_or_zero b; 17 * digit_or_zero c]).
Proof.
  intros H. rewrite (hex_to_rgb_three_chars color a b c H).
  rewrite collect_three_pairs. unfold all_hex. simpl forallb.
  rewrite !andb_true_iff. split.
  - intros (v1 & v2 & v3 & H1 & H2 & H3 & ->).
    apply pair_value_doubled in H1 as [? ->], H2 as [? ->], H3 as [? ->]. auto.
  - intros [(Ha & Hb & Hc & _) ->].
    exists (17 * digit_or_zero a), (17 * digit_or_zero b), (17 * digit_or_zero c).
    rewrite !pair_value_doubled. auto.
Qed.

Lemma hex_to_rgb_three_accepted_witness :
  hex_to_rgb (PyStr "#f0C") = Ok [255; 0; 204]
  <-> all_hex "f0C" = true
      /\ [255; 0; 204]
         = [17 * digit_or_zero "f"; 17 * digit_or_zero "0"; 17 * digit_or_zero "C"].
Proof.
  exact (hex_to_rgb_three_accepted "#f0C" "f" "0" "C" [255; 0; 204] eq_refl).
Defined.

(** Whatever the input, a colour that resolves has exactly three values,
    and each lies between -15 and 255. *)
Theorem hex_to_rgb_result_shape (color : py_value) (rgb : list Z) :
  hex_to_rgb color = Ok rgb ->
  List.length rgb = 3%nat /\ Forall (fun v => -15 <= v <= 255) rgb.
Proof.
  intros H. split.
  - exact (hex_to_rgb_three_values color rgb H).
  - exact (hex_to_rgb_range color rgb H).
Qed.

Lemma hex_to_rgb_result_shape_witness :
  List.length [-15; 255; 10] = 3%nat
  /\ Forall (fun v => -15 <= v <= 255) [-15; 255; 10].
Proof.
  exact (hex_to_rgb_result_shape (PyStr "-fFF a") [-15; 255; 10] eq_refl).
Defined.

Lemma hex_number_pair_range (a b : ascii) :
  is_hex_digit a = true -> is_hex_digit b = true ->
  0 <= hex_number (pair_of a b) <= 255.
Proof.
  intros Ha Hb.
  pose proof (hex_pairs_ind
                (fun a b => (0 <=? hex_number (pair_of a b))
                            && (hex_number (pair_of a b) <=? 255))
                ltac:(vm_compute; reflexivity) a b Ha Hb) as H.
  simpl in H. lia.
Qed.

(** A text that is three or six hexadecimal digits, once the name is
    resolved and the markers are stripped, resolves, and to three values
    between 0 and 255. *)
Theorem hex_to_rgb_digits_in_range (color : string) :
  all_hex (strip_marker (resolve_name color)) = true ->
  Py.len (strip_marker (resolve_name color)) = 3
  \/ Py.len (strip_marker (resolve_name color)) = 6 ->
  exists r g b,
    hex_to_rgb (PyStr color) = Ok [r; g; b]
    /\ 0 <= r <= 255 /\ 0 <= g <= 255 /\ 0 <= b <= 255.
Proof.
  intros Hhex [L|L].
  - destruct (length_three _ L) as (a & b & c & E). rewrite E in Hhex.
    rewrite (hex_to_rgb_three_chars color a b c E).
    assert (H6 : all_hex (six a a b b c c) = true).
    { unfold all_hex in *. simpl in *.
      repeat (apply andb_prop in Hhex as [? Hhex]).
      repeat (apply andb_true_intro; split); assumption. }
    rewrite (collect_hex_pairs a a b b c c H6).
    unfold all_hex in Hhex. simpl in Hhex.
    repeat (apply andb_prop in Hhex as [? Hhex]).
    do 3 eexists. split; [reflexivity|].
    repeat split; apply hex_number_pair_range; assumption.
  - destruct (length_six _ L) as (r1 & r2 & g1 & g2 & b1 & b2 & E).
    rewrite E in Hhex.
    rewrite (hex_to_rgb_six_chars color r1 r2 g1 g2 b1 b2 E).
    rewrite (collect_hex_pairs r1 r2 g1 g2 b1 b2 Hhex).
    unfold all_hex, six in Hhex. simpl in Hhex.
    repeat (apply andb_prop in Hhex as [? Hhex]).
    do 3 eexists. split; [reflexivity|].
    repeat split; apply hex_number_pair_range; assumption.
Qed.

Lemma hex_to_rgb_digits_in_range_witness :
  exists r g b,
    hex_to_rgb (PyStr "Green") = Ok [r; g; b]
    /\ 0 <= r <= 255 /\ 0 <= g <= 255 /\ 0 <= b <= 255.
Proof.
  apply (hex_to_rgb_digits_in_range "Green"); [reflexivity | right; reflexivity].
Defined.

(** The five names are recognised whatever the case of their letters:
    a text whose lower-case form is a name resolves to the colour of the
    name. *)
Theorem hex_to_rgb_named (color : string) (rgb : list Z) :
  In (Py.lower color, rgb) NAMED_RGB ->
  hex_to_rgb (PyStr color) = Ok rgb.
Proof.
  intros H. unfold hex_to_rgb, resolve_name. simpl in H.
  destruct H as [H|[H|[H|[H|[H|[]]]]]]; injection H as E <-; rewrite <- E;
    reflexivity.
Qed.

Lemma hex_to_rgb_named_witness :
  hex_to_rgb (PyStr "bLuE") = Ok [0; 0; 255].
Proof.
  apply hex_to_rgb_named. simpl. auto 10.
Defined.

Lemma strip_marker_markers (n : nat) :
  strip_marker (resolve_name (markers n)) = EmptyString.
Proof.
  destruct n as [|n]; [reflexivity|].
  change (markers (S n)) with (String "#" (markers n)).
  rewrite resolve_name_marker.
  pose proof (lstrip_markers (S n) EmptyString eq_refl) as L.
  replace (String.append (markers (S n)) EmptyString)
    with (String "#" (markers n)) in L; [exact L|].
  simpl. f_equal. clear L. induction n as [|n IH]; simpl; congruence.
Qed.

(** The empty text and a text of markers only are refused for their
    length. *)
Theorem hex_to_rgb_markers_only (n : nat) :
  hex_to_rgb (PyStr (markers n))
  = Raise (ValueError "Invalid hex color format").
Proof.
  apply hex_to_rgb_bad_length; rewrite strip_marker_markers; discriminate.
Qed.

Lemma hex_to_rgb_plain_three (a b c : ascii) :
  all_hex (String a (String b (String c EmptyString))) = true ->
  hex_to_rgb (PyStr (String a (String b (String c EmptyString))))
  = Ok [hex_number (pair_of a a); hex_number (pair_of b b);
        hex_number (pair_of c c)].
Proof.
  intros Hhex.
  assert (H6 : all_hex (six a a b b c c) = true).
  { unfold all_hex in *. simpl in *.
    repeat (apply andb_prop in Hhex as [? Hhex]).
    repeat (apply andb_true_intro; split); assumption. }
  rewrite (hex_to_rgb_three_chars _ a b c).
  - now rewrite (collect_hex_pairs a a b b c c H6).
  - rewrite resolve_name_hex by (auto; left; reflexivity).
    apply strip_marker_hex, Hhex.
Qed.





(** C10: every leading marker is stripped: [n >= 1] markers before three or
    six hexadecimal digits resolve to what the digits alone resolve to, and
    that is the triple of the three numbers the digits denote (each digit
    doubled in the short form), each between 0 and 255. *)
Theorem hex_to_rgb_markers (n : nat) (s : string) :
  (1 <= n)%nat ->
  all_hex s = true ->
  (String.length s = 3 \/ String.length s = 6)%nat ->
  hex_to_rgb (PyStr (String.append (markers n) s)) = hex_to_rgb (PyStr s)
  /\ hex_to_rgb (PyStr s) = Ok (channels s)
  /\ List.length (channels s) = 3%nat
  /\ Forall (fun v => 0 <= v <= 255) (channels s).
Proof.
  intros Hn Hhex Hlen.
  assert (Hstart : Py.startswith s "#" = false).
  { destruct s as [|c r]; [reflexivity|].
    unfold all_hex in Hhex. simpl in Hhex. apply andb_prop in Hhex as [Hc _].
    exact (hex_digit_not_marker c Hc). }
  split.
  { destruct n as [|n]; [lia|].
    unfold hex_to_rgb.
    change (String.append (markers (S n)) s)
      with (String "#" (String.append (markers n) s)).
    assert (Hstrip : strip_marker (String "#" (String.append (markers n) s)) = s)
      by exact (lstrip_markers (S n) s Hstart).
    rewrite resolve_name_marker, (resolve_name_hex s Hhex Hlen), Hstrip.
    rewrite (strip_marker_hex s Hhex). reflexivity. }
  destruct Hlen as [L|L].
  - destruct s as [|a [|b [|c [|d r]]]]; try discriminate L.
    split; [exact (hex_to_rgb_plain_three a b c Hhex)|].
    split; [reflexivity|].
    unfold all_hex in Hhex. simpl in Hhex.
    repeat (apply andb_prop in Hhex as [? Hhex]).
    repeat constructor; apply (hex_number_pair_range _ _); assumption.
  - destruct s as [|r1 [|r2 [|g1 [|g2 [|b1 [|b2 [|c r]]]]]]]; try discriminate L.
    split; [exact (hex_to_rgb_plain_six r1 r2 g1 g2 b1 b2 Hhex)|].
    split; [reflexivity|].
    unfold all_hex in Hhex. simpl in Hhex.
    repeat (apply andb_prop in Hhex as [? Hhex]).
    repeat constructor; apply (hex_number_pair_range _ _); assumption.
Qed.

Lemma hex_to_rgb_markers_witness :
  hex_to_rgb (PyStr "###1A2b3C") = hex_to_rgb (PyStr "1A2b3C")
  /\ hex_to_rgb (PyStr "1A2b3C") = Ok [26; 43; 60]
  /\ List.length [26; 43; 60] = 3%nat
  /\ Forall (fun v => 0 <= v <= 255) [26; 43; 60].
Proof.
  apply (hex_to_rgb_markers 3 "1A2b3C"); [lia | reflexivity | right; reflexivity].
Defined.

(** ** The entries *)

Lemma substring_length (n : nat) (s : string) :
  String.length (String.substring 0 n s) = Nat.min n (String.length s).
Proof.
  revert s. induction n as [|n IH]; intros [|c r]; simpl; auto.
Qed.

Lemma substring_is_prefix (n : nat) (s : string) :
  exists rest, s = String.append (String.substring 0 n s) rest.
Proof.
  revert s. induction n as [|n IH]; intros [|c r]; simpl.
  - now exists EmptyString.
  - now exists (String c r).
  - now exists EmptyString.
  - destruct (IH r) as (rest & E). exists rest. now rewrite <- E.
Qed.

(** An entry holds the first 105 characters of what was written to it:
    the text is cut, never refused, a text of at most 105 characters is
    kept whole, and cutting twice is cutting once. *)
Theorem limit_entry_length_cuts (text : string) :
  Py.len (limit_entry_length text) = Z.min (Py.len text) 105
  /\ (exists rest, text = String.append (limit_entry_length text) rest)
  /\ (Py.len text <= 105 -> limit_entry_length text = text)
  /\ limit_entry_length (limit_entry_length text) = limit_entry_length text.
Proof.
  unfold limit_entry_length, Py.len, Py.slice.
  change (Z.to_nat (105 - 0)) with 105%nat. change (Z.to_nat 0) with 0%nat.
  destruct (Z.of_nat (String.length text) >? 105) eqn:G.
  - apply Z.gtb_lt in G. rewrite substring_length.
    assert (Hle : (Z.of_nat (Nat.min 105 (String.length text)) >? 105) = false).
    { rewrite Z.gtb_ltb. apply Z.ltb_ge. lia. }
    rewrite Hle. repeat split; try lia.
    apply substring_is_prefix.
  - rewrite G.
    assert (Hle : Z.of_nat (String.length text) <= 105).
    { destruct (Z.gtb_spec (Z.of_nat (String.length text)) 105); [discriminate|lia]. }
    repeat split; try lia.
    exists EmptyString. clear. induction text as [|c r IH]; simpl; congruence.
Qed.

(** ** More on the font-fit rule *)

Section FontFitChoice.

Variable string_width : string -> string -> Z -> string -> Q.



(** A wider limit keeps the loop going no longer. *)
Lemma adjust_loop_limit (n : nat) :
  forall pdf text narrow wide font_size,
    Z.to_nat (font_size - 6) = n ->
    Qle narrow wide ->
    snd (adjust_loop string_width pdf text narrow font_size)
    <= snd (adjust_loop string_width pdf text wide font_size).
Proof.
  induction n as [|n IH]; intros pdf text narrow wide font_size Hn Hle;
    rewrite (adjust_loop_step string_width pdf text wide);
    destruct (keeps_shrinking string_width pdf text wide font_size) eqn:K.
  - apply keeps_shrinking_true in K as [_ G]. lia.
  - pose proof (adjust_loop_bounds string_width _ pdf text narrow font_size eq_refl).
    simpl. lia.
  - apply keeps_shrinking_true in K as [W G].
    assert (K' : keeps_shrinking string_width pdf text narrow font_size = true).
    { apply keeps_shrinking_true. split; [|exact G].
      eapply Qle_lt_trans; [exact Hle | exact W]. }
    rewrite (adjust_loop_step string_width pdf text narrow), K'.
    apply IH; [lia | exact Hle].
  - pose proof (adjust_loop_bounds string_width _ pdf text narrow font_size eq_refl).
    simpl. lia.
Qed.

(** The size chosen depends on the font of the document and on nothing
    else of it. *)
Lemma adjust_loop_font_only (n : nat) :
  forall pdf1 pdf2 text max_width font_size,
    Z.to_nat (font_size - 6) = n ->
    font_family pdf1 = font_family pdf2 ->
    font_style pdf1 = font_style pdf2 ->
    font_size_pt pdf1 = font_size_pt pdf2 ->
    snd (adjust_loop string_width pdf1 text max_width font_size)
    = snd (adjust_loop string_width pdf2 text max_width font_size).
Proof.
  induction n as [|n IH]; intros pdf1 pdf2 text max_width font_size Hn Hf Hs Hz;
    rewrite (adjust_loop_step string_width pdf1), (adjust_loop_step string_width pdf2);
    assert (E : keeps_shrinking string_width pdf1 text max_width font_size
                = keeps_shrinking string_width pdf2 text max_width font_size)
      by (unfold keeps_shrinking, get_string_width; now rewrite Hf, Hs, Hz);
    rewrite E;
    destruct (keeps_shrinking string_width pdf2 text max_width font_size) eqn:K;
    try reflexivity;
    apply keeps_shrinking_true in K as [_ G].
  - lia.
  - apply IH; [lia | reflexivity | reflexivity |].
    simpl. now rewrite Hz.
Qed.

End FontFitChoice.



(** A wider cell never gets a smaller font: the size chosen does not
    shrink when the maximum width grows. *)
Theorem adjust_font_size_wider_cell
        (string_width : string -> string -> Z -> string -> Q)
        (pdf : FPDF) (text : string) (narrow wide : Q) (start : Z) :
  Qle narrow wide ->
  snd (adjust_font_size string_width pdf text narrow start)
  <= snd (adjust_font_size string_width pdf text wide start).
Proof.
  intros Hle.
  exact (adjust_loop_limit string_width _ pdf text narrow wide start eq_refl Hle).
Qed.

Lemma adjust_font_size_wider_cell_witness :
  snd (adjust_font_size fixed_pitch_width regular12 "Sub-second builds" 30 12)
  <= snd (adjust_font_size fixed_pitch_width regular12 "Sub-second builds" 40 12).
Proof.
  apply adjust_font_size_wider_cell. unfold Qle. simpl. lia.
Defined.

(** ** The document as a function of the state *)

Section DocumentShape.

Variable string_width : string -> string -> Z -> string -> Q.

(** A value cell is the text cell of its text in the colours of the
    document, which it leaves as they are. *)
Lemma value_cell_explicit (pdf : FPDF) (text : string) :
  content (value_cell string_width pdf text)
  = content pdf
    ++ [OpCell (text_cell string_width text (fill_color pdf) (text_color pdf))]
  /\ fill_color (value_cell string_width pdf text) = fill_color pdf
  /\ text_color (value_cell string_width pdf text) = text_color pdf.
Proof.
  unfold value_cell.
  set (pdf12 := Fpdf.set_font pdf "NotoSans" "" 12).
  pose proof (adjust_loop_keeps string_width _ pdf12 (or_na text)
                                (inject_Z cell_width_text) 12 eq_refl)
    as (Hc & Hf & Ht).
  pose proof (adjust_loop_bounds string_width _ pdf12 (or_na text)
                                 (inject_Z cell_width_text) 12 eq_refl) as Hb.
  pose proof (adjust_loop_font_only string_width _ pdf12 regular12 (or_na text)
                (inject_Z cell_width_text) 12 eq_refl eq_refl eq_refl eq_refl)
    as Hsize.
  unfold adjust_font_size.
  destruct (adjust_loop string_width pdf12 (or_na text)
                        (inject_Z cell_width_text) 12) as [pdf' size] eqn:E.
  simpl in Hc, Hf, Ht, Hb, Hsize.
  assert (Hz : (size =? 0) = false) by (apply Z.eqb_neq; lia).
  unfold Fpdf.cell, Fpdf.emit, Fpdf.current_cell, text_cell, fit_size,
    adjust_font_size.
  simpl. rewrite Hz, Hc, Hf, Ht, <- Hsize. auto.
Qed.

(** A turn of the loop, when the two goal colours resolve, adds the rows
    of its table. *)
Lemma render_table_explicit (self : App) (pdf : FPDF) (t : table)
      (fill ink : list Z) :
  hex_to_rgb (PyStr (goal_row_color self)) = Ok fill ->
  hex_to_rgb (PyStr (goal_font_color self)) = Ok ink ->
  exists pdf',
    render_table string_width self pdf t = Ok pdf'
    /\ content pdf' = content pdf ++ row_ops string_width fill ink t.
Proof.
  intros Hfill Hink. destruct t as [problem_text goal_text].
  unfold render_table. rewrite Hfill, Hink. simpl bind.
  eexists. split; [reflexivity|].
  match goal with
  | |- context [value_cell string_width ?p goal_text] =>
      destruct (value_cell_explicit p goal_text) as (Hg & _ & _)
  end.
  match type of Hg with
  | context [value_cell string_width ?p problem_text] =>
      destruct (value_cell_explicit p problem_text) as (Hp & Hpf & Hpt)
  end.
  rewrite content_ln, Hg. autorewrite with fpdf_content.
  rewrite Hp. autorewrite with fpdf_content.
  rewrite <- !app_assoc. simpl app. unfold row_ops. simpl fst. simpl snd.
  reflexivity.
Qed.

Lemma render_tables_explicit (self : App) (ts : list table) (fill ink : list Z) :
  hex_to_rgb (PyStr (goal_row_color self)) = Ok fill ->
  hex_to_rgb (PyStr (goal_font_color self)) = Ok ink ->
  forall pdf,
  exists pdf',
    render_tables string_width self pdf ts = Ok pdf'
    /\ content pdf'
       = content pdf ++ flat_map (row_ops string_width fill ink) ts.
Proof.
  intros Hfill Hink.
  induction ts as [|t ts IH]; intros pdf.
  - exists pdf. split; [reflexivity|]. simpl. now rewrite app_nil_r.
  - destruct (render_table_explicit self pdf t fill ink Hfill Hink)
      as (pdf1 & E1 & C1).
    destruct (IH pdf1) as (pdf' & E & C).
    exists pdf'. simpl. rewrite E1. simpl. split; [exact E|].
    rewrite C, C1, <- app_assoc. reflexivity.
Qed.

(** The first table decides: when a goal colour does not resolve, the
    loop over one table or more raises. *)
Lemma render_tables_raises (self : App) (t : table) (ts : list table)
      (pdf : FPDF) :
  (forall fill, hex_to_rgb (PyStr (goal_row_color self)) <> Ok fill)
  \/ (forall ink, hex_to_rgb (PyStr (goal_font_color self)) <> Ok ink) ->
  exists e, render_tables string_width self pdf (t :: ts) = Raise e.
Proof.
  intros H. destruct t as [problem_text goal_text].
  change (render_tables string_width self pdf ((problem_text, goal_text) :: ts))
    with (bind (render_table string_width self pdf (problem_text, goal_text))
               (fun pdf => render_tables string_width self pdf ts)).
  unfold render_table.
  destruct (hex_to_rgb (PyStr (goal_row_color self))) as [fill|e] eqn:Ef.
  - destruct (hex_to_rgb (PyStr (goal_font_color self))) as [ink|e] eqn:Ei.
    + destruct H as [H|H]; [now destruct (H fill) | now destruct (H ink)].
    + exists e. reflexivity.
  - exists e. reflexivity.
Qed.

(** Up to the loop over the tables: when the two colours of the about
    section resolve, the front of the document is drawn and the loop runs
    on it; when one does not, the export raises. *)
Lemma assemble_front (self : App) (bg fg : list Z) :
  hex_to_rgb (PyStr (about_bg_color self)) = Ok bg ->
  hex_to_rgb (PyStr (about_font_color self)) = Ok fg ->
  exists pdf,
    content pdf = front_ops self bg fg
    /\ assemble string_width self
       = render_tables string_width self pdf (tables self).
Proof.
  intros Hbg Hfg. unfold assemble. rewrite Hbg, Hfg.
  eexists. split; [|reflexivity]. reflexivity.
Qed.

Lemma assemble_front_raises (self : App) :
  (forall bg, hex_to_rgb (PyStr (about_bg_color self)) <> Ok bg)
  \/ (forall fg, hex_to_rgb (PyStr (about_font_color self)) <> Ok fg) ->
  exists e, assemble string_width self = Raise e.
Proof.
  intros H. unfold assemble.
  destruct (hex_to_rgb (PyStr (about_bg_color self))) as [bg|e] eqn:Eb.
  - destruct (hex_to_rgb (PyStr (about_font_color self))) as [fg|e] eqn:Ef.
    + destruct H as [H|H]; [now destruct (H bg) | now destruct (H fg)].
    + exists e. reflexivity.
  - exists e. reflexivity.
Qed.

Lemma resolves_dec (color : string) :
  resolves color \/ (forall rgb, hex_to_rgb (PyStr color) <> Ok rgb).
Proof.
  unfold resolves.
  destruct (hex_to_rgb (PyStr color)) as [rgb|e]; [left; eauto|right; discriminate].
Qed.

(** What a document that was assembled consists of. *)
Lemma assemble_inv (self : App) (pdf : FPDF) :
  assemble string_width self = Ok pdf ->
  exists bg fg,
    hex_to_rgb (PyStr (about_bg_color self)) = Ok bg
    /\ hex_to_rgb (PyStr (about_font_color self)) = Ok fg
    /\ ((tables self = [] /\ content pdf = front_ops self bg fg)
        \/ exists fill ink,
            hex_to_rgb (PyStr (goal_row_color self)) = Ok fill
            /\ hex_to_rgb (PyStr (goal_font_color self)) = Ok ink
            /\ content pdf
               = front_ops self bg fg
                 ++ flat_map (row_ops string_width fill ink) (tables self)).
Proof.
  intros H.
  destruct (resolves_dec (about_bg_color self)) as [[bg Hbg]|Nbg];
    [|destruct (assemble_front_raises self (or_introl Nbg)); congruence].
  destruct (resolves_dec (about_font_color self)) as [[fg Hfg]|Nfg];
    [|destruct (assemble_front_raises self (or_intror Nfg)); congruence].
  exists bg, fg. split; [exact Hbg|]. split; [exact Hfg|].
  destruct (assemble_front self bg fg Hbg Hfg) as (p0 & C0 & E0).
  rewrite E0 in H.
  destruct (tables self) as [|t ts] eqn:Et.
  - left. simpl in H. injection H as <-. auto.
  - right.
    destruct (resolves_dec (goal_row_color self)) as [[fill Hfill]|Nfill];
      [|destruct (render_tables_raises self t ts p0 (or_introl Nfill)); congruence].
    destruct (resolves_dec (goal_font_color self)) as [[ink Hink]|Nink];
      [|destruct (render_tables_raises self t ts p0 (or_intror Nink)); congruence].
    exists fill, ink. split; [exact Hfill|]. split; [exact Hink|].
    destruct (render_tables_explicit self (t :: ts) fill ink Hfill Hink p0)
      as (pdf' & E & C).
    rewrite E in H. injection H as <-. now rewrite C, C0.
Qed.

Lemma texts_app (a b : list op) : texts (a ++ b) = texts a ++ texts b.
Proof. unfold texts. apply flat_map_app. Qed.

Lemma texts_rows (fill ink : list Z) (ts : list table) :
  texts (flat_map (row_ops string_width fill ink) ts) = flat_map row_texts ts.
Proof.
  induction ts as [|t ts IH]; [reflexivity|].
  change (flat_map (row_ops string_width fill ink) (t :: ts))
    with (row_ops string_width fill ink t
          ++ flat_map (row_ops string_width fill ink) ts).
  rewrite texts_app, IH. reflexivity.
Qed.

End DocumentShape.

(** An assembled document is the front (the about block in the two about
    colours as they resolve, with the alignment set last, and the
    headings) followed by the rows of the tables in their order: a Problem
    row in white and black, a Goal row in the two goal colours as they
    resolve, the labels in bold at 12, and every value cell at the size
    the font-fit rule chooses for its text alone, whatever was drawn
    before.  The colours of a cell are the channels the export passed to
    the library. *)
Theorem assemble_document
        (string_width : string -> string -> Z -> string -> Q)
        (self : App) (pdf : FPDF) :
  assemble string_width self = Ok pdf ->
  tables self <> [] ->
  exists bg fg fill ink,
    hex_to_rgb (PyStr (about_bg_color self)) = Ok bg
    /\ hex_to_rgb (PyStr (about_font_color self)) = Ok fg
    /\ hex_to_rgb (PyStr (goal_row_color self)) = Ok fill
    /\ hex_to_rgb (PyStr (goal_font_color self)) = Ok ink
    /\ content pdf
       = front_ops self bg fg
         ++ flat_map (row_ops string_width fill ink) (tables self).
Proof.
  intros H Hne.
  destruct (assemble_inv string_width self pdf H)
    as (bg & fg & Hbg & Hfg & [[Et _]|(fill & ink & Hfill & Hink & Hc)]);
    [congruence|].
  exists bg, fg, fill, ink. auto.
Qed.

Lemma assemble_document_witness :
  exists pdf,
    assemble fixed_pitch_width three_objectives = Ok pdf
    /\ content pdf
       = front_ops three_objectives [51; 102; 153] [255; 204; 0]
         ++ flat_map (row_ops fixed_pitch_width [170; 187; 204] [16; 32; 48])
                     (tables three_objectives).
Proof.
  eexists. split; [reflexivity|].
  destruct (assemble_document fixed_pitch_width three_objectives _ eq_refl)
    as (bg & fg & fill & ink & Hbg & Hfg & Hfill & Hink & Hc).
  - discriminate.
  - vm_compute in Hbg, Hfg, Hfill, Hink.
    injection Hbg as <-. injection Hfg as <-.
    injection Hfill as <-. injection Hink as <-.
    exact Hc.
Defined.

(** A colour that does not resolve ends the export: when one of the two
    about colours does not resolve, or there is a table and one of the two
    goal colours does not resolve, the export raises before the save
    dialog, whatever the dialog would have answered; no file is written
    and the application is not reset. *)
Theorem save_as_pdf_unresolved_colour
        (string_width : string -> string -> Z -> string -> Q)
        (self : App) (file_path : string) :
  ~ resolves (about_bg_color self)
  \/ ~ resolves (about_font_color self)
  \/ (tables self <> []
      /\ (~ resolves (goal_row_color self)
          \/ ~ resolves (goal_font_color self))) ->
  exists e, save_as_pdf string_width self file_path = Raise e.
Proof.
  intros H.
  assert (A : exists e, assemble string_width self = Raise e).
  { destruct (assemble string_width self) as [pdf|e] eqn:E; [|now exists e].
    exfalso.
    destruct (assemble_inv string_width self pdf E)
      as (bg & fg & Hbg & Hfg & [[Et _]|(fill & ink & Hfill & Hink & _)]).
    - destruct H as [N|[N|[Hne _]]].
      + apply N. now exists bg.
      + apply N. now exists fg.
      + congruence.
    - destruct H as [N|[N|[_ [N|N]]]]; apply N;
        [now exists bg | now exists fg | now exists fill | now exists ink]. }
  destruct A as (e & E). exists e.
  exact (save_as_pdf_invalid_color string_width self file_path e E).
Qed.

Lemma save_as_pdf_unresolved_colour_witness :
  exists e,
    save_as_pdf fixed_pitch_width
                (set_goal_row_color three_objectives (Some "xyz123"%string))
                "proposal.pdf"
    = Raise e.
Proof.
  apply save_as_pdf_unresolved_colour.
  right. right. split; [discriminate|]. left.
  intros (rgb & H). discriminate H.
Defined.

(** The texts of the cells of an assembled document, in the order they
    were drawn, are the heading, the about text without the blanks around
    it, the second heading, and for each table in order its four texts,
    with ["N/A"] for an empty entry. *)
Theorem assemble_texts
        (string_width : string -> string -> Z -> string -> Q)
        (self : App) (pdf : FPDF) :
  assemble string_width self = Ok pdf ->
  texts (content pdf)
  = [ "Details About the Project:"%string;
      Py.strip (String.append (about_text self) (String "010" EmptyString));
      "Project Objectives"%string ]
    ++ flat_map row_texts (tables self).
Proof.
  intros H.
  destruct (assemble_inv string_width self pdf H)
    as (bg & fg & _ & _ & [[Et ->]|(fill & ink & _ & _ & ->)]).
  - rewrite Et. reflexivity.
  - rewrite texts_app, texts_rows. reflexivity.
Qed.

Lemma assemble_texts_witness :
  exists pdf,
    assemble fixed_pitch_width three_objectives = Ok pdf
    /\ texts (content pdf)
       = [ "Details About the Project:"%string; "Hello World"%string;
           "Project Objectives"%string;
           "Problem:"%string; "Slow builds"%string;
           "Goal:"%string; "Sub-second builds"%string;
           "Problem:"%string; "Flaky tests"%string;
           "Goal:"%string; "N/A"%string;
           "Problem:"%string; "N/A"%string;
           "Goal:"%string; "One-click release"%string ].
Proof.
  eexists. split; [reflexivity|].
  exact (assemble_texts fixed_pitch_width three_objectives _ eq_refl).
Defined.

(** ** The session *)

Lemma strip_marker_start (r1 r2 g1 g2 b1 b2 : ascii) :
  all_hex (six r1 r2 g1 g2 b1 b2) = true ->
  Py.startswith (six r1 r2 g1 g2 b1 b2) "#" = false.
Proof.
  unfold all_hex, six. simpl. intros H. apply andb_prop in H as [H _].
  exact (hex_digit_not_marker r1 H).
Qed.

Lemma limit_entry_length_len (text : string) :
  Py.len (limit_entry_length text) <= 105.
Proof.
  unfold limit_entry_length.
  destruct (Z.gtb_spec (Py.len text) 105) as [G|L]; [|exact L].
  unfold Py.len, Py.slice.
  change (Z.to_nat (105 - 0)) with 105%nat. change (Z.to_nat 0) with 0%nat.
  rewrite substring_length. lia.
Qed.

Lemma update_table_keeps (ts : list table) (i : nat) (t : table) :
  Forall entry_ok ts -> entry_ok t ->
  Forall entry_ok (update_table ts i t)
  /\ List.length (update_table ts i t) = List.length ts.
Proof.
  intros Hts Ht. revert i.
  induction Hts as [|t' ts Ht' Hts IH]; intros i; [destruct i; simpl; auto|].
  destruct i as [|i]; simpl.
  - split; [constructor; assumption | reflexivity].
  - destruct (IH i) as [F L]. split; [constructor; assumption | now rewrite L].
Qed.

Lemma not_nil_length {A : Type} (l : list A) : l <> [] <-> (0 < List.length l)%nat.
Proof. destruct l; simpl; split; intros H; try congruence; lia. Qed.

Lemma well_formed_create_widgets : well_formed create_widgets.
Proof.
  unfold well_formed, color_ok, entry_ok. simpl.
  repeat split; try discriminate; auto.
  constructor; [split; unfold Py.len; simpl; lia | constructor].
Qed.

Lemma well_formed_reset (self : App) :
  well_formed self -> well_formed (reset_application self).
Proof.
  intros (Hne & _ & Hal & _). unfold well_formed, reset_application.
  destruct (tables self) as [|t ts]; [congruence|]. simpl.
  unfold color_ok. repeat split; try discriminate; auto.
  constructor; [split; unfold Py.len; simpl; lia | constructor].
Qed.

Lemma well_formed_set_color (self : App) (answer : option string)
      (set : App -> option string -> App) :
  (forall c, truthy answer = Some c ->
             tables (set self answer) = tables self
             /\ text_alignment (set self answer) = text_alignment self
             /\ forall get,
                 In get [about_bg_color; about_font_color;
                         goal_row_color; goal_font_color] ->
                 get (set self answer) = c \/ get (set self answer) = get self) ->
  (truthy answer = None -> set self answer = self) ->
  chooser_answer answer = true ->
  well_formed self -> well_formed (set self answer).
Proof.
  intros Hsome Hnone Hans Hwf.
  destruct (truthy answer) as [c|] eqn:T; [|now rewrite Hnone].
  destruct (Hsome c eq_refl) as (Ht & Ha & Hc).
  assert (Hok : color_ok c).
  { right. right. destruct answer as [[|m r]|]; try discriminate T.
    injection T as <-. exact Hans. }
  destruct Hwf as (W1 & W2 & W3 & W4 & W5 & W6 & W7).
  unfold well_formed. rewrite Ht, Ha.
  repeat split; try assumption.
  - destruct (Hc about_bg_color) as [->| ->]; simpl; auto.
  - destruct (Hc about_font_color) as [->| ->]; simpl; auto.
  - destruct (Hc goal_row_color) as [->| ->]; simpl; auto 6.
  - destruct (Hc goal_font_color) as [->| ->]; simpl; auto 6.
Qed.

Lemma well_formed_step
      (string_width : string -> string -> Z -> string -> Q)
      (self : App) (a : action) :
  action_ok a = true -> well_formed self ->
  well_formed (step string_width self a).
Proof.
  intros Hok Hwf. destruct a as [|align|c|c|c|c|i problem goal|text|file_path];
    simpl in Hok; simpl step.
  - destruct Hwf as (W1 & W2 & W3 & W4 & W5 & W6 & W7).
    unfold well_formed, add_table. simpl. repeat split; try assumption.
    + destruct (tables self); discriminate.
    + apply Forall_app. split; [exact W2|].
      constructor; [split; unfold Py.len; simpl; lia | constructor].
  - destruct Hwf as (W1 & W2 & W3 & W4 & W5 & W6 & W7).
    unfold well_formed, set_alignment. simpl. repeat split; try assumption.
    destruct align; simpl; auto.
  - apply (well_formed_set_color self c set_about_bg_color); try assumption.
    + intros x T. unfold set_about_bg_color. rewrite T. simpl.
      repeat split. intros get [<-|[<-|[<-|[<-|[]]]]]; simpl; auto.
    + intros T. unfold set_about_bg_color. now rewrite T.
  - apply (well_formed_set_color self c set_about_font_color); try assumption.
    + intros x T. unfold set_about_font_color. rewrite T. simpl.
      repeat split. intros get [<-|[<-|[<-|[<-|[]]]]]; simpl; auto.
    + intros T. unfold set_about_font_color. now rewrite T.
  - apply (well_formed_set_color self c set_goal_row_color); try assumption.
    + intros x T. unfold set_goal_row_color. rewrite T. simpl.
      repeat split. intros get [<-|[<-|[<-|[<-|[]]]]]; simpl; auto.
    + intros T. unfold set_goal_row_color. now rewrite T.
  - apply (well_formed_set_color self c set_goal_font_color); try assumption.
    + intros x T. unfold set_goal_font_color. rewrite T. simpl.
      repeat split. intros get [<-|[<-|[<-|[<-|[]]]]]; simpl; auto.
    + intros T. unfold set_goal_font_color. now rewrite T.
  - destruct Hwf as (W1 & W2 & W3 & W4 & W5 & W6 & W7).
    destruct (update_table_keeps (tables self) i
                (limit_entry_length problem, limit_entry_length goal) W2)
      as [F L].
    { split; apply limit_entry_length_len. }
    unfold well_formed, write_entries. simpl. repeat split; try assumption.
    apply not_nil_length. rewrite L. now apply not_nil_length.
  - destruct Hwf as (W1 & W2 & W3 & W4 & W5 & W6 & W7).
    unfold well_formed, write_about. simpl. repeat split; assumption.
  - unfold save_as_pdf.
    destruct (assemble string_width self) as [pdf|e]; [|exact Hwf].
    simpl. destruct file_path as [|ch r]; [exact Hwf|].
    apply well_formed_reset, Hwf.
Qed.

Lemma well_formed_fold
      (string_width : string -> string -> Z -> string -> Q)
      (actions : list action) :
  forallb action_ok actions = true ->
  forall self, well_formed self ->
               well_formed (fold_left (step string_width) actions self).
Proof.
  induction actions as [|a actions IH]; intros Hok self Hwf; [exact Hwf|].
  simpl in Hok. apply andb_prop in Hok as [Ha Hrest].
  simpl. apply (IH Hrest). apply well_formed_step; assumption.
Qed.

(** A session whose colours come from the colour chooser.  After any
    sequence of events there is at least one table, no entry holds more
    than 105 characters, the alignment is one of L, C and R, and every
    colour is black, white or the marker and six hexadecimal digits. *)
Theorem session_well_formed
        (string_width : string -> string -> Z -> string -> Q)
        (actions : list action) :
  forallb action_ok actions = true ->
  well_formed (run string_width actions).
Proof.
  intros Hok.
  exact (well_formed_fold string_width actions Hok create_widgets
                          well_formed_create_widgets).
Qed.

Lemma color_ok_in_range (c : string) :
  color_ok c ->
  exists r g b,
    hex_to_rgb (PyStr c) = Ok [r; g; b]
    /\ 0 <= r <= 255 /\ 0 <= g <= 255 /\ 0 <= b <= 255.
Proof.
  intros [->|[->|H]].
  - exists 0, 0, 0. split; [reflexivity|lia].
  - exists 255, 255, 255. split; [reflexivity|lia].
  - unfold is_chooser_color in H.
    destruct c as [|m r]; [discriminate|].
    destruct (Ascii.eqb_spec m "#") as [->|Hm].
    + apply andb_prop in H as [L Hhex]. apply Nat.eqb_eq in L.
      destruct r as [|r1 [|r2 [|g1 [|g2 [|b1 [|b2 [|x r]]]]]]]; try discriminate L.
      do 3 eexists. split.
      * rewrite (hex_to_rgb_six_chars _ r1 r2 g1 g2 b1 b2).
        -- rewrite (collect_hex_pairs r1 r2 g1 g2 b1 b2 Hhex). reflexivity.
        -- rewrite resolve_name_marker.
           exact (lstrip_markers 1 (six r1 r2 g1 g2 b1 b2)
                    (strip_marker_start r1 r2 g1 g2 b1 b2 Hhex)).
      * unfold all_hex in Hhex. simpl in Hhex.
        repeat (apply andb_prop in Hhex as [? Hhex]).
        repeat split; apply hex_number_pair_range; assumption.
    + destruct m as [[] [] [] [] [] [] [] []]; try discriminate H.
      now destruct Hm.
Qed.

(** In such a session the resolver never refuses a colour of the
    application: after any sequence of events each of the four colours
    resolves, and to three channels between 0 and 255.  No export of the
    session ends for a colour, and the library is handed no channel out of
    its range. *)
Theorem session_colours_resolve
        (string_width : string -> string -> Z -> string -> Q)
        (actions : list action) :
  forallb action_ok actions = true ->
  let self := run string_width actions in
  forall c,
    In c [about_bg_color self; about_font_color self;
          goal_row_color self; goal_font_color self] ->
    exists r g b,
      hex_to_rgb (PyStr c) = Ok [r; g; b]
      /\ 0 <= r <= 255 /\ 0 <= g <= 255 /\ 0 <= b <= 255.
Proof.
  intros Hok self c Hin.
  destruct (well_formed_fold string_width actions Hok create_widgets
                             well_formed_create_widgets)
    as (_ & _ & _ & Hbg & Hfg & Hrow & Hgf).
  apply color_ok_in_range.
  destruct Hin as [<-|[<-|[<-|[<-|[]]]]]; assumption.
Qed.

Lemma session_well_formed_witness :
  well_formed (run fixed_pitch_width sample_session).
Proof.
  exact (session_well_formed fixed_pitch_width sample_session eq_refl).
Defined.

Lemma session_colours_resolve_witness :
  exists r g b,
    hex_to_rgb (PyStr (about_bg_color (run fixed_pitch_width sample_session)))
    = Ok [r; g; b]
    /\ 0 <= r <= 255 /\ 0 <= g <= 255 /\ 0 <= b <= 255.
Proof.
  apply (session_colours_resolve fixed_pitch_width sample_session eq_refl).
  left. reflexivity.
Defined.

(** ** The reset *)

Lemma save_as_pdf_exported_witness :
  about_bg_color (reset_application three_objectives) = "black"%string
  /\ about_font_color (reset_application three_objectives) = "white"%string
  /\ goal_row_color (reset_application three_objectives) = "#ffffff"%string
  /\ goal_font_color (reset_application three_objectives) = "black"%string
  /\ about_text (reset_application three_objectives) = EmptyString
  /\ tables (reset_application three_objectives) = [(EmptyString, EmptyString)]
  /\ text_alignment (reset_application three_objectives) = "C"%string.
Proof.
  destruct (assemble fixed_pitch_width three_objectives) as [pdf|e] eqn:E;
    [|discriminate E].
  destruct (save_as_pdf_exported fixed_pitch_width three_objectives
              (reset_application three_objectives) "proposal.pdf"
              ("proposal.pdf"%string, pdf))
    as (H1 & H2 & H3 & H4 & H5 & H6 & H7 & _).
  - unfold save_as_pdf. rewrite E. reflexivity.
  - discriminate.
  - repeat split; assumption.
Defined.

(** Resetting twice is resetting once; and the reset of an application
    with a table is the application as it starts exactly when the
    alignment is the initial one. *)
Theorem reset_application_initial (self : App) :
  tables self <> [] ->
  reset_application (reset_application self) = reset_application self
  /\ (reset_application self = create_widgets
      <-> text_alignment self = "L"%string).
Proof.
  intros Hne. unfold reset_application.
  destruct (tables self) as [|t ts]; [congruence|]. simpl. split; [reflexivity|].
  split.
  - intros H. injection H as H. exact H.
  - intros ->. reflexivity.
Qed.

Lemma reset_application_initial_witness :
  reset_application (reset_application three_objectives)
  = reset_application three_objectives
  /\ (reset_application three_objectives = create_widgets
      <-> text_alignment three_objectives = "L"%string).
Proof.
  apply reset_application_initial. discriminate.
Defined.

(** ** The about block *)

Lemma rstrip_space_newline (s : string) :
  Py.rstrip_space (String.append s (String "010" EmptyString))
  = Py.rstrip_space s.
Proof.
  induction s as [|c r IH]; [reflexivity|].
  simpl. rewrite IH. reflexivity.
Qed.

Lemma lstrip_space_newline (s : string) :
  Py.lstrip_space (String.append s (String "010" EmptyString))
  = match Py.lstrip_space s with
    | EmptyString => EmptyString
    | x => String.append x (String "010" EmptyString)
    end.
Proof.
  induction s as [|c r IH]; [reflexivity|].
  simpl. destruct (Py.unicode_isspace c); [exact IH|reflexivity].
Qed.

(** The newline the text widget appends plays no part. *)
Lemma strip_newline (s : string) :
  Py.strip (String.append s (String "010" EmptyString)) = Py.strip s.
Proof.
  unfold Py.strip. rewrite lstrip_space_newline.
  destruct (Py.lstrip_space s) as [|c r]; [reflexivity|].
  apply (rstrip_space_newline (String c r)).
Qed.

Lemma lstrip_space_first (s : string) (c : ascii) (r : string) :
  Py.lstrip_space s = String c r -> Py.unicode_isspace c = false.
Proof.
  induction s as [|a s IH]; simpl; [discriminate|].
  destruct (Py.unicode_isspace a) eqn:E; [exact IH|].
  intros H. injection H as <- _. exact E.
Qed.

Lemma rstrip_space_first (s : string) (c : ascii) (r : string) :
  Py.rstrip_space s = String c r ->
  exists r', s = String c r'.
Proof.
  destruct s as [|a s]; simpl; [discriminate|].
  destruct (Py.rstrip_space s) as [|d x].
  - destruct (Py.unicode_isspace a); [discriminate|].
    intros H. injection H as <- _. now exists s.
  - intros H. injection H as <- _. now exists s.
Qed.

Lemma rstrip_space_last (s r : string) (c : ascii) :
  Py.rstrip_space s = String.append r (String c EmptyString) ->
  Py.unicode_isspace c = false.
Proof.
  revert r. induction s as [|a s IH]; intros r; simpl.
  - destruct r; discriminate.
  - destruct (Py.rstrip_space s) as [|d x] eqn:E.
    + destruct (Py.unicode_isspace a) eqn:Ea; [destruct r; discriminate|].
      destruct r as [|b [|b' r]]; simpl; intros H; try discriminate H.
      injection H as <-. exact Ea.
    + destruct r as [|b r]; simpl; intros H; [discriminate H|].
      injection H as _ H. exact (IH r H).
Qed.

(** The about block of an assembled document: its text is the about text
    without the blanks before and after it, so it neither begins nor ends
    with a blank, and the newline the text widget appends never shows; it
    is filled, in the two about colours as they resolve, and aligned as
    the alignment was set last. *)
Theorem assemble_about_block
        (string_width : string -> string -> Z -> string -> Q)
        (self : App) (pdf : FPDF) :
  assemble string_width self = Ok pdf ->
  exists c,
    In (OpMultiCell c) (content pdf)
    /\ cell_text c = Py.strip (about_text self)
    /\ (forall ch r, cell_text c = String ch r -> Py.unicode_isspace ch = false)
    /\ (forall r ch, cell_text c = String.append r (String ch EmptyString) ->
                     Py.unicode_isspace ch = false)
    /\ cell_fill c = true
    /\ cell_align c = text_alignment self
    /\ hex_to_rgb (PyStr (about_bg_color self)) = Ok (cell_fill_color c)
    /\ hex_to_rgb (PyStr (about_font_color self)) = Ok (cell_text_color c).
Proof.
  intros H.
  destruct (assemble_inv string_width self pdf H)
    as (bg & fg & Hbg & Hfg & Hcontent).
  exists (mkCell 0 10 (Py.strip (String.append (about_text self)
                                               (String "010" EmptyString)))
                 0 true (text_alignment self) "" 12 bg fg).
  split.
  { destruct Hcontent as [[_ ->]|(fill & ink & _ & _ & ->)];
      [|apply in_or_app; left]; simpl; auto 10. }
  simpl. rewrite strip_newline. repeat split; try assumption.
  - intros ch r E. unfold Py.strip in E.
    destruct (rstrip_space_first _ _ _ E) as (r' & E').
    exact (lstrip_space_first _ _ _ E').
  - intros r ch E. exact (rstrip_space_last _ _ _ E).
Qed.

Lemma assemble_about_block_witness :
  exists pdf c,
    assemble fixed_pitch_width
             (write_about three_objectives "  Hello World ") = Ok pdf
    /\ In (OpMultiCell c) (content pdf)
    /\ cell_text c = "Hello World"%string
    /\ cell_align c = "C"%string
    /\ cell_fill_color c = [51; 102; 153].
Proof.
  eexists.
  destruct (assemble_about_block
              fixed_pitch_width (write_about three_objectives "  Hello World ")
              _ eq_refl)
    as (c & Hin & Ht & _ & _ & _ & Ha & Hf & _).
  exists c.
  split; [reflexivity|]. split; [exact Hin|]. split; [exact Ht|].
  split; [exact Ha|].
  vm_compute in Hf. injection Hf as Hf. symmetry. exact Hf.
Defined.

(** ** The three refusals *)

Lemma reraise_as_outcome {A : Type} (msg : string) (m : result A) :
  (exists a, reraise_as msg m = Ok a)
  \/ reraise_as msg m = Raise (ValueError msg).
Proof.
  destruct m as [a|[m']]; [left; now exists a | right; reflexivity].
Qed.

(** Every refusal of the colour resolver is one of three errors, and
    which one is decided as follows: what is no string is refused as
    such; a string is refused for its format exactly when its length,
    once the name is resolved and the markers are stripped, is neither 3
    nor 6; and a string of such a length, when it is refused, is refused
    for its value. *)
Theorem hex_to_rgb_refusals (color : py_value) (e : exn) :
  hex_to_rgb color = Raise e ->
  match color with
  | PyStr s =>
      let n := Py.len (strip_marker (resolve_name s)) in
      (e = ValueError "Invalid hex color format" /\ n <> 3 /\ n <> 6)
      \/ (e = ValueError "Invalid hex color value" /\ (n = 3 \/ n = 6))
  | _ => e = ValueError "Color must be a string"
  end.
Proof.
  destruct color as [s|n|]; simpl; intros H; try (injection H as <-; reflexivity).
  destruct (Z.eq_dec (Py.len (strip_marker (resolve_name s))) 3) as [L3|N3].
  - right. split; [|left; exact L3].
    destruct (length_three _ L3) as (a & b & c & E).
    assert (H' := H). change (hex_to_rgb (PyStr s) = Raise e) in H'.
    rewrite (hex_to_rgb_three_chars s a b c E) in H'.
    destruct (reraise_as_outcome "Invalid hex color value"
                (collect Py.int16 [pair_of a a; pair_of b b; pair_of c c]))
      as [(rgb & R)|R]; rewrite R in H'; [discriminate H'|].
    now injection H' as <-.
  - destruct (Z.eq_dec (Py.len (strip_marker (resolve_name s))) 6) as [L6|N6].
    + right. split; [|right; exact L6].
      destruct (length_six _ L6) as (r1 & r2 & g1 & g2 & b1 & b2 & E).
      assert (H' := H). change (hex_to_rgb (PyStr s) = Raise e) in H'.
      rewrite (hex_to_rgb_six_chars s r1 r2 g1 g2 b1 b2 E) in H'.
      destruct (reraise_as_outcome "Invalid hex color value"
                  (collect Py.int16 [pair_of r1 r2; pair_of g1 g2; pair_of b1 b2]))
        as [(rgb & R)|R]; rewrite R in H'; [discriminate H'|].
      now injection H' as <-.
    + left. split; [|split; assumption].
      assert (H' := H). change (hex_to_rgb (PyStr s) = Raise e) in H'.
      rewrite (hex_to_rgb_bad_length s N3 N6) in H'. now injection H' as <-.
Qed.

Lemma hex_to_rgb_refusals_witness :
  (ValueError "Invalid hex color value" = ValueError "Invalid hex color format"
   /\ Py.len (strip_marker (resolve_name "#red")) <> 3
   /\ Py.len (strip_marker (resolve_name "#red")) <> 6)
  \/ (ValueError "Invalid hex color value" = ValueError "Invalid hex color value"
      /\ (Py.len (strip_marker (resolve_name "#red")) = 3
          \/ Py.len (strip_marker (resolve_name "#red")) = 6)).
Proof.
  exact (hex_to_rgb_refusals (PyStr "#red")
                             (ValueError "Invalid hex color value") eq_refl).
Defined.
